(** * The scratch-org wizards: [start_development.py] and [pull_metadata.py]

    A shallow embedding of the two command-line wizards of
    [scripts/cli-tools] and of the helpers they share, followed by the
    properties of their command orchestration.

    - Python [str] values are [string]s whose characters are the code
      points 0..255; [strip], [lower], [isdigit] and [int] follow CPython on
      that range (so the ASCII blanks 0x09-0x0D, 0x1C-0x20 and the Latin-1
      blanks 0x85 and 0xA0 are white space, the superscript digits
      0xB2, 0xB3, 0xB9 satisfy [isdigit] although [int] rejects them, and
      [int] rejects a text of more than 4300 digits).
    - Side effects (logging, printing, reading a line, spawning a child
      process, looking at the file system) are the nodes of a program tree
      [prog]; [sys.exit] and an uncaught exception are leaves.
    - A [world] answers every effect from the history of the run so far;
      [exec] runs a program in a world and returns the events of the run,
      each with the answer it got, and the way the run ended.

    - [subprocess.run] refuses a command or a directory that holds a NUL
      with [ValueError] before any child is made, and raises
      [UnicodeDecodeError] when the output it captured is no text.

    Left out of the model: what argparse does with a command line (the
    programs start from what it returns; [main_entry] takes its verdict),
    the search for a default org alias, and the characters above U+00FF,
    on which [lower] can change the length of a text. *)

From Stdlib Require Import ZArith NArith Ascii String List Lia Bool.
From stdpp Require Import base list strings pretty.

Open Scope string_scope.
Open Scope list_scope.

(** ** Python strings *)

Module PyStr.

Definition code (c : ascii) : N := N_of_ascii c.

Definition between (lo hi n : N) : bool := ((lo <=? n) && (n <=? hi))%N.

(** [str.isspace] on one character ([Py_UNICODE_ISSPACE]). *)
Definition isspace_char (c : ascii) : bool :=
  let n := code c in
  between 9 13 n || between 28 32 n || (n =? 133)%N || (n =? 160)%N.

(** [str.lower] on one character: A-Z, and the Latin-1 capitals
    U+00C0..U+00DE except the multiplication sign U+00D7. *)
Definition lower_char (c : ascii) : ascii :=
  let n := code c in
  if between 65 90 n || (between 192 222 n && negb (n =? 215)%N)
  then ascii_of_N (n + 32) else c.

(** [str.isdigit] on one character: 0-9 and the superscripts 1, 2, 3. *)
Definition isdigit_char (c : ascii) : bool :=
  let n := code c in
  between 48 57 n || (n =? 178)%N || (n =? 179)%N || (n =? 185)%N.

(** The value [int] gives a character, when it accepts it. *)
Definition decimal_value (c : ascii) : option N :=
  let n := code c in
  if between 48 57 n then Some (n - 48)%N else None.

Definition is_empty (s : string) : bool :=
  match s with EmptyString => true | String _ _ => false end.

Fixpoint smap (f : ascii -> ascii) (s : string) : string :=
  match s with
  | EmptyString => EmptyString
  | String c s' => String (f c) (smap f s')
  end.

Fixpoint sforall (f : ascii -> bool) (s : string) : bool :=
  match s with
  | EmptyString => true
  | String c s' => f c && sforall f s'
  end.

Fixpoint lstrip (s : string) : string :=
  match s with
  | EmptyString => EmptyString
  | String c s' => if isspace_char c then lstrip s' else s
  end.

Fixpoint rstrip (s : string) : string :=
  match s with
  | EmptyString => EmptyString
  | String c s' =>
      let r := rstrip s' in
      if isspace_char c && is_empty r then EmptyString else String c r
  end.

(** [s.strip()] *)
Definition strip (s : string) : string := rstrip (lstrip s).

(** [s.lower()] *)
Definition lower (s : string) : string := smap lower_char s.

(** [s.replace(old, new)] for a pattern [old] of one character. *)
Fixpoint replace (old : ascii) (new : string) (s : string) : string :=
  match s with
  | EmptyString => EmptyString
  | String c s' =>
      if Ascii.eqb c old then new +:+ replace old new s'
      else String c (replace old new s')
  end.

(** [s.split(sep)] for a separator of one character: always at least
    one piece, one more than the separators in [s]. *)
Fixpoint split (sep : ascii) (s : string) : list string :=
  match s with
  | EmptyString => [EmptyString]
  | String c s' =>
      if Ascii.eqb c sep then EmptyString :: split sep s'
      else match split sep s' with
           | piece :: rest => String c piece :: rest
           | [] => [String c EmptyString]
           end
  end.

(** [sep.join(l)] *)
Definition join (sep : string) (l : list string) : string :=
  String.concat sep l.

(** [needle in hay] *)
Fixpoint contains (needle hay : string) : bool :=
  String.prefix needle hay
  || match hay with
     | EmptyString => false
     | String _ hay' => contains needle hay'
     end.

(** [s.endswith(suffix)] *)
Fixpoint endswith (suffix s : string) : bool :=
  String.eqb suffix s
  || match s with
     | EmptyString => false
     | String _ s' => endswith suffix s'
     end.

(** [s.isdigit()]: every character is a digit and there is one. *)
Definition isdigit (s : string) : bool :=
  negb (is_empty s) && sforall isdigit_char s.

Fixpoint int_acc (acc : N) (s : string) : option N :=
  match s with
  | EmptyString => Some acc
  | String c s' =>
      match decimal_value c with
      | Some d => int_acc (acc * 10 + d) s'
      | None => None
      end
  end.

(** [sys.int_info.default_max_str_digits]: the longest text [int]
    converts. *)
Definition max_str_digits : nat := 4300.

(** [int(s)] on a string that passed [isdigit]; [None] is the
    [ValueError] Python raises on a digit that is no decimal and on a text
    of more than [max_str_digits] digits. *)
Definition int (s : string) : option N :=
  if is_empty s then None
  else if Nat.ltb max_str_digits (String.length s) then None
  else int_acc 0 s.

(** [f"{i:2d}"]: decimal, right-aligned in two columns. *)
Definition fmt_2d (i : nat) : string :=
  let d := pretty i in
  if Nat.ltb (String.length d) 2 then " " +:+ d else d.

(** The characters [shlex.quote] leaves alone: [\w@%+=:,./-] under
    [re.ASCII]. *)
Definition shell_safe_char (c : ascii) : bool :=
  let n := code c in
  between 48 57 n || between 65 90 n || between 97 122 n || (n =? 95)%N
  || existsb (Ascii.eqb c)
       ["@"; "%"; "+"; "="; ":"; ","; "."; "/"; "-"]%char.

Definition squote : string := "'".
Definition dquote : string := String "034"%char EmptyString.

(** [shlex.quote(s)] *)
Definition shlex_quote (s : string) : string :=
  if is_empty s then squote +:+ squote
  else if sforall shell_safe_char s then s
  else squote
       +:+ replace "'"%char (squote +:+ dquote +:+ squote +:+ dquote +:+ squote) s
       +:+ squote.

End PyStr.

(** ** Effects, programs and runs *)

Inductive level := HEADER | STEP | INFO | SUCCESS | WARNING | ERROR.

(** The exceptions the scripts can meet. [CalledProcessError] carries the
    [stdout] attribute: the captured text, or [None] when the child wrote
    to the terminal itself. *)
Inductive exn :=
| ValueError
| IndexError
| EOFError
| OSError
| UnicodeDecodeError
| CalledProcessError (stdout : option string).

(** What the operating system reports of a child process: it could not be
    started, or it ran to its end with a return code, having written
    [output] (standard output and standard error together): the text, or
    [None] when what it wrote is no text in the encoding of the locale. *)
Inductive proc_result :=
| NotStarted
| Completed (returncode : Z) (output : option string).

Inductive effect :=
| Log (lvl : level) (msg : string)          (* a line through the loguru sink *)
| Print (line : string)                     (* print(line) *)
| Input (prompt : string)                   (* input(prompt) *)
| Spawn (cmd : list string) (cwd : option string) (capture : bool)
| Refuse (cmd : list string) (cwd : option string) (capture : bool)
| PathExists (path : string)                (* Path(path).exists() *)
| Resolve (base rel : string)               (* str((Path(base) / rel).resolve()) *)
| Mkdir (path : string).                    (* mkdir(parents=True, exist_ok=True) *)

(** [Spawn] is a call of [subprocess.run] that reaches the operating
    system, [Refuse] one that [subprocess.run] turns down itself, so that
    no child is made. [Input] answers [None] at the end of the input;
    [Mkdir] answers whether the directory is there afterwards. *)
Definition answer (e : effect) : Type :=
  match e with
  | Log _ _ => unit
  | Print _ => unit
  | Input _ => option string
  | Spawn _ _ _ => proc_result
  | Refuse _ _ _ => unit
  | PathExists _ => bool
  | Resolve _ _ => string
  | Mkdir _ => bool
  end.

Inductive prog (A : Type) : Type :=
| Ret (a : A)                               (* the function returns a *)
| Exit (code : Z)                           (* sys.exit(code) *)
| Raise (e : exn)                           (* an exception is on its way up *)
| Vis (e : effect) (k : answer e -> prog A).

Arguments Ret {A} a.
Arguments Exit {A} code.
Arguments Raise {A} e.
Arguments Vis {A} e k.

Fixpoint bind {A B} (p : prog A) (f : A -> prog B) : prog B :=
  match p with
  | Ret a => f a
  | Exit c => Exit c
  | Raise e => Raise e
  | Vis e k => Vis e (fun a => bind (k a) f)
  end.

(** [try: p except ...: handler]; a handler answers [None] for the
    exceptions its clause does not name. *)
Fixpoint catch {A} (p : prog A) (handler : exn -> option (prog A)) : prog A :=
  match p with
  | Ret a => Ret a
  | Exit c => Exit c
  | Raise e => match handler e with Some q => q | None => Raise e end
  | Vis e k => Vis e (fun a => catch (k a) handler)
  end.

Definition trigger (e : effect) : prog (answer e) := Vis e Ret.

Declare Scope prog_scope.
Delimit Scope prog_scope with prog.
Bind Scope prog_scope with prog.
Notation "x <- p ;; q" := (bind p (fun x => q))
  (at level 100, p at next level, right associativity) : prog_scope.
Notation "p ;; q" := (bind p (fun _ => q))
  (at level 100, right associativity) : prog_scope.
Open Scope prog_scope.

(** An event of a run: the effect and the answer it got. *)
Inductive event := Event (e : effect) (a : answer e).

(** A world answers an effect from the events that came before it. *)
Definition world : Type := list event -> forall e : effect, answer e.

(** Logging, printing and a refused call have nothing to learn from the
    world. *)
Definition reply (w : world) (h : list event) (e : effect) : answer e :=
  match e as e0 return answer e0 with
  | Log _ _ => tt
  | Print _ => tt
  | Refuse _ _ _ => tt
  | e0 => w h e0
  end.

Inductive outcome (A : Type) : Type :=
| Returned (a : A)
| Exited (code : Z)
| Raised (e : exn).

Arguments Returned {A} a.
Arguments Exited {A} code.
Arguments Raised {A} e.

(** [exec w h p]: the events [p] adds to the history [h] in the world [w],
    in order, and the way it ends. *)
Fixpoint exec {A} (w : world) (h : list event) (p : prog A)
  : list event * outcome A :=
  match p with
  | Ret a => ([], Returned a)
  | Exit c => ([], Exited c)
  | Raise e => ([], Raised e)
  | Vis e k =>
      let a := reply w h e in
      let r := exec w (h ++ [Event e a]) (k a) in
      (Event e a :: fst r, snd r)
  end.

(** *** What a trace shows *)

Fixpoint starts_with (prefix l : list string) : bool :=
  match prefix, l with
  | [], _ => true
  | p :: prefix', x :: l' => String.eqb p x && starts_with prefix' l'
  | _ :: _, [] => false
  end.

(** The commands spawned, in order: every command handed to
    [subprocess.run]. *)
Definition spawned (t : list event) : list (list string) :=
  omap (fun ev => match ev with
                  | Event (Spawn cmd _ _) _ => Some cmd
                  | Event (Refuse cmd _ _) _ => Some cmd
                  | _ => None
                  end) t.

(** The warnings logged, in order. *)
Definition warnings (t : list event) : list string :=
  omap (fun ev => match ev with
                  | Event (Log WARNING msg) _ => Some msg
                  | _ => None
                  end) t.

(** The answers to [input()], in order. *)
Definition inputs (t : list event) : list (option string) :=
  omap (fun ev => match ev with
                  | Event (Input _) a => Some (a : option string)
                  | _ => None
                  end) t.

(** The paths looked up with [exists()] and what was found, in order. *)
Definition lookups (t : list event) : list (string * bool) :=
  omap (fun ev => match ev with
                  | Event (PathExists p) b => Some (p, b : bool)
                  | _ => None
                  end) t.

(** The paths [resolve()] returned, in order. *)
Definition resolved (t : list event) : list string :=
  omap (fun ev => match ev with
                  | Event (Resolve _ _) p => Some (p : string)
                  | _ => None
                  end) t.

(** The text every [cmd ...] child that ran to its end wrote, in order. *)
Definition outputs_of (cmd : list string) (t : list event) : list string :=
  omap (fun ev => match ev with
                  | Event (Spawn c _ _) (Completed _ out) =>
                      if starts_with cmd c then out else None
                  | _ => None
                  end) t.

(** ** The collaborators: logger.py and the builtins *)

Module logger.
Definition header (message : string) : prog unit := trigger (Log HEADER message).
Definition info (message : string) : prog unit := trigger (Log INFO message).
Definition step (message : string) : prog unit :=
  trigger (Log STEP ("************ " +:+ message +:+ " ************")).
Definition status (message : string) : prog unit := trigger (Log INFO message).
Definition success (message : string) : prog unit := trigger (Log SUCCESS message).
Definition warning (message : string) : prog unit := trigger (Log WARNING message).
Definition error (message : string) : prog unit := trigger (Log ERROR message).
End logger.

Definition print (line : string) : prog unit := trigger (Print line).

(** [input(prompt)]: the line without its newline, [EOFError] at the end
    of the input. *)
Definition input (prompt : string) : prog string :=
  a <- trigger (Input prompt) ;;
  match a with
  | Some line => Ret line
  | None => Raise EOFError
  end.

(** The text holds the character U+0000. *)
Fixpoint has_nul (s : string) : bool :=
  match s with
  | EmptyString => false
  | String c s' => Ascii.eqb c "000"%char || has_nul s'
  end.

(** A token of the command or the directory holds a NUL: the
    "embedded null byte" of [subprocess.run]. *)
Definition embedded_null (cmd : list string) (cwd : option string) : bool :=
  existsb has_nul cmd
  || match cwd with
     | Some dir => has_nul dir
     | None => false
     end.

(** [subprocess.run(cmd, check=True, cwd=cwd)], with
    [stdout=PIPE, stderr=STDOUT, text=True] when [capture]: the [stdout]
    attribute of the completed process. The call raises [ValueError]
    before a child is made when a token or the directory holds a NUL, and
    [UnicodeDecodeError], whatever the return code, when the output it
    captured is no text. *)
Definition subprocess_run (cmd : list string) (cwd : option string)
    (capture : bool) : prog (option string) :=
  if embedded_null cmd cwd then
    trigger (Refuse cmd cwd capture) ;;
    Raise ValueError
  else
    r <- trigger (Spawn cmd cwd capture) ;;
    match r with
    | NotStarted => Raise OSError
    | Completed returncode output =>
        if capture then
          match output with
          | None => Raise UnicodeDecodeError
          | Some text =>
              if (returncode =? 0)%Z then Ret (Some text)
              else Raise (CalledProcessError (Some text))
          end
        else
          if (returncode =? 0)%Z then Ret None
          else Raise (CalledProcessError None)
    end.

(** [Path(dir) / name] as text, for an absolute [dir] and a plain [name]. *)
Definition path_join (dir name : string) : string :=
  if String.eqb dir "/" then dir +:+ name else dir +:+ "/" +:+ name.

(** Truth of an optional text: [None] and the empty text are false. *)
Definition truthy (s : option string) : bool :=
  match s with
  | Some s => negb (PyStr.is_empty s)
  | None => false
  end.

(** [s or ''] *)
Definition or_empty (s : option string) : string :=
  match s with
  | Some s => s
  | None => EmptyString
  end.

(** ** start_development.py *)

Module start_development.

(** The namespace [parse_args] returns. *)
Record Args := {
  environment : string;
  review : bool;
  devhub_url : string;
  force_devhub_connection : bool;
  preview : bool
}.



Definition run_subprocess (cmd_list : list string) (passthrough : bool)
    (cwd : option string) : prog (option string) :=
  let cmd_str := PyStr.join " " cmd_list in
  logger.status ("$ " +:+ cmd_str) ;;
  catch
    (if passthrough then
       subprocess_run cmd_list cwd false ;;
       logger.success cmd_str ;;
       Ret None
     else
       out <- subprocess_run cmd_list cwd true ;;
       logger.success cmd_str ;;
       Ret out)
    (fun ex =>
       match ex with
       | CalledProcessError stdout =>
           Some (logger.error ("FAILED: " +:+ cmd_str) ;;
                 (if truthy stdout then print (or_empty stdout) else Ret tt) ;;
                 Exit 1)
       | _ => None
       end).

Definition norm_env (name : string) : string :=
  PyStr.replace " "%char "-" (PyStr.lower (PyStr.strip name)).

Definition git_prepare_branch (environment_name : string)
    (review_mode : bool) : prog unit :=
  logger.step "GITHUB" ;;
  logger.status "Checking out `main` branch and getting latest update from Github ..." ;;
  run_subprocess ["git"; "checkout"; "main"] true None ;;
  run_subprocess ["git"; "pull"; "origin"; "main"] true None ;;
  if negb review_mode then
    logger.status "Create and push feature branch from `main`" ;;
    logger.status "Creating new development branch ..." ;;
    run_subprocess ["git"; "checkout"; "-b"; environment_name; "main"] true None ;;
    Ret tt
  else
    logger.status "--- Review mode ---" ;;
    logger.status "Checking out development branch ..." ;;
    listed <- run_subprocess ["git"; "branch"; "--list"; environment_name] false None ;;
    let existing_git_branch := or_empty listed in
    (if PyStr.contains environment_name existing_git_branch then
       logger.status "Deleting local branch ..." ;;
       run_subprocess ["git"; "branch"; "-D"; environment_name] true None ;;
       Ret tt
     else Ret tt) ;;
    run_subprocess
      ["git"; "checkout"; "-b"; environment_name; "origin/" +:+ environment_name]
      true None ;;
    Ret tt.

Definition check_sfcli_exists : prog unit :=
  logger.step "CHECK SF CLI" ;;
  logger.status "Validating SFDC Binary is available ..." ;;
  run_subprocess ["sf"; "--version"] false None ;;
  Ret tt.

Definition login_devhub (devhub_url : string) (force_auth : bool) : prog unit :=
  logger.step "CHECK SFDX LOGIN STATUS" ;;
  logger.status "Checking SFDX Devhub login status ..." ;;
  logger.status "Retrieving list of Salesforce Orgs ..." ;;
  logger.step "AUTHORIZING DEV HUB" ;;
  listed <- run_subprocess ["sf"; "org"; "list"] false None ;;
  let orgs := or_empty listed in
  (if force_auth || negb (PyStr.contains "DevHub" orgs) then
     logger.status "Logging into Dev Hub ..." ;;
     run_subprocess
       ["sf"; "org"; "login"; "web";
        "--alias"; "DevHub";
        "--set-default-dev-hub";
        "--instance-url"; devhub_url]
       true None ;;
     Ret tt
   else
     logger.status "Using existing Dev Hub alias `DevHub`.") ;;
  listed <- run_subprocess ["sf"; "org"; "list"] false None ;;
  let orgs := or_empty listed in
  if negb (PyStr.contains "DevHub" orgs) then
    logger.error "Devhub alias not found after login" ;;
    Exit 1
  else Ret tt.

Section Paths.

(** The directory two levels above the script's own, resolved. *)
Variable REPO_ROOT : string.

Definition SFDX_PROJECT_DIR : string := REPO_ROOT.
Definition SCRATCH_DEF : string :=
  path_join (path_join SFDX_PROJECT_DIR "config") "project-scratch-def.json".
Definition SOURCE_DIR : string := path_join SFDX_PROJECT_DIR "force-app".

Definition create_scratch_org (environment_name : string)
    (review_mode preview_mode : bool) : prog unit :=
  logger.step "CREATE SCRATCH ORG" ;;
  logger.status "Attempting to deploy new Scratch Org..." ;;
  found <- trigger (PathExists SCRATCH_DEF) ;;
  (if negb found then
     logger.error ("Scratch definition not found: " +:+ SCRATCH_DEF) ;;
     Exit 1
   else Ret tt) ;;
  let duration_in_days := if review_mode then "7" else "30" in
  let scratch_org_creation_cmd :=
    ["sf"; "org"; "create"; "scratch";
     "--definition-file"; SCRATCH_DEF;
     "--alias"; environment_name;
     "--duration-days"; duration_in_days;
     "--set-default"] in
  let scratch_org_creation_cmd :=
    if preview_mode then scratch_org_creation_cmd ++ ["--release"; "Preview"]
    else scratch_org_creation_cmd in
  run_subprocess scratch_org_creation_cmd true None ;;
  Ret tt.

Definition deploy_source_metadata (environment_name : string) : prog unit :=
  logger.step "DEPLOY SOURCE" ;;
  found <- trigger (PathExists SFDX_PROJECT_DIR) ;;
  (if negb found then
     logger.error ("Project directory not found: " +:+ SFDX_PROJECT_DIR) ;;
     Exit 1
   else Ret tt) ;;
  logger.status "Deploying force-app to scratch org ..." ;;
  run_subprocess
    ["sf"; "project"; "deploy"; "start";
     "--target-org"; environment_name;
     "--source-dir"; SOURCE_DIR]
    true (Some SFDX_PROJECT_DIR) ;;
  Ret tt.

Definition open_scratch_org (environment_name : string)
    (review_mode : bool) : prog unit :=
  logger.step "OPEN ORG" ;;
  logger.status "Opening the scratch org in your browser ..." ;;
  run_subprocess ["sf"; "org"; "open"; "--target-org"; environment_name] true None ;;
  Ret tt.

(** The alias [main] computes for the scratch org (its lines
    195-199). *)
Definition scratch_alias (args : Args) : string :=
  let raw_env := environment args in
  let env := norm_env raw_env in
  if review args then env +:+ "-review" else env.

(** [main] from its line 195 on, with the arguments [parse_args]
    returned. *)
Definition main_steps (args : Args) : prog unit :=
  let raw_env := environment args in
  let env := norm_env raw_env in
  let scratch_alias := scratch_alias args in
  logger.status ("Environment (raw): " +:+ raw_env) ;;
  logger.status ("Normalized alias: " +:+ scratch_alias) ;;
  git_prepare_branch env (review args) ;;
  logger.success "Git branch ready." ;;
  check_sfcli_exists ;;
  login_devhub (devhub_url args) (force_devhub_connection args) ;;
  logger.success "Dev Hub ready." ;;
  create_scratch_org scratch_alias (review args) (preview args) ;;
  logger.success "Scratch org created." ;;
  deploy_source_metadata scratch_alias ;;
  logger.success "Source deployed." ;;
  open_scratch_org scratch_alias (review args) ;;
  logger.success "All done. Happy building!".

(** [main], from the parsed arguments on. *)
Definition main (args : Args) : prog unit :=
  logger.header "Scratch Org Script" ;;
  main_steps args.


End Paths.

End start_development.

(** ** pull_metadata.py *)

Module pull_metadata.

Definition run (cmd : list string) (cwd : option string)
    (passthrough : bool) : prog (option string) :=
  let pretty := PyStr.join " " (map PyStr.shlex_quote cmd) in
  logger.status ("$ " +:+ pretty) ;;
  catch
    (if passthrough then
       subprocess_run cmd cwd false ;;
       logger.success pretty ;;
       Ret None
     else
       out <- subprocess_run cmd cwd true ;;
       logger.success pretty ;;
       Ret out)
    (fun e =>
       match e with
       | CalledProcessError stdout =>
           Some (logger.error ("FAILED: " +:+ pretty) ;;
                 (if truthy stdout then print (or_empty stdout) else Ret tt) ;;
                 Exit 1)
       | _ => None
       end).







Definition ask (prompt : string) (default : option string) : prog string :=
  let suffix := if truthy default then " [" +:+ or_empty default +:+ "] " else " " in
  line <- input (prompt +:+ suffix) ;;
  let val := PyStr.strip line in
  Ret (if PyStr.is_empty val then or_empty default else val).

Definition ask_bool (prompt : string) (default : bool) : prog bool :=
  let suffix := if default then " [Y/n] " else " [y/N] " in
  line <- input (prompt +:+ suffix) ;;
  let val := PyStr.lower (PyStr.strip line) in
  if PyStr.is_empty val then Ret default
  else Ret (String.eqb val "y" || String.eqb val "yes").

(** [for i, opt in enumerate(options, start=i): print(f"  {i:2d}) {opt}")] *)
Fixpoint print_options (i : nat) (options : list string) : prog unit :=
  match options with
  | [] => Ret tt
  | opt :: rest =>
      print ("  " +:+ PyStr.fmt_2d i +:+ ") " +:+ opt) ;;
      print_options (S i) rest
  end.

(** The body of [for token in raw.split(",")], on the pieces left and
    the picks made so far. *)
Fixpoint pick_tokens (options : list string) (tokens : list string)
    (picks : list string) : prog (list string) :=
  match tokens with
  | [] => Ret picks
  | token :: rest =>
      let token := PyStr.strip token in
      if PyStr.is_empty token then pick_tokens options rest picks
      else if negb (PyStr.isdigit token) then
        logger.warning ("Ignoring '" +:+ token +:+ "' (not a number).") ;;
        pick_tokens options rest picks
      else
        match PyStr.int token with
        | None => Raise ValueError
        | Some idx =>
            if ((1 <=? idx) && (idx <=? N.of_nat (length options)))%N then
              match options !! N.to_nat (idx - 1) with
              | Some opt => pick_tokens options rest (picks ++ [opt])
              | None => Raise IndexError
              end
            else
              logger.warning ("Ignoring '" +:+ token +:+ "' (out of range).") ;;
              pick_tokens options rest picks
        end
  end.

Definition choose_many (prompt : string) (options : list string)
    : prog (list string) :=
  print EmptyString ;;
  logger.info prompt ;;
  print_options 1 options ;;
  print EmptyString ;;
  line <- input "Enter number(s) separated by comma, or leave blank to cancel: " ;;
  let raw := PyStr.strip line in
  if PyStr.is_empty raw then Ret []
  else pick_tokens options (PyStr.split ","%char raw) [].

Definition CURATED_TYPES : list string :=
  [ "ApexClass";
    "ApexTrigger";
    "ApexPage";
    "ApexComponent";
    "LightningComponentBundle";
    "AuraDefinitionBundle";
    "LightningMessageChannel";
    "CustomObject";
    "CustomField";
    "Layout";
    "RecordType";
    "Flow";
    "FlowDefinition";
    "ValidationRule";
    "PermissionSet";
    "PermissionSetGroup";
    "Profile";
    "FlexiPage";
    "GlobalValueSet";
    "StaticResource";
    "CustomApplication";
    "CustomTab";
    "RemoteSiteSetting";
    "NamedCredential";
    "ConnectedApp";
    "EmailTemplate";
    "Report";
    "Dashboard";
    "ReportType";
    "Translations" ].

(** [[t.strip() for t in raw.split(",") if t.strip()]] *)
Definition stripped_items (raw : string) : list string :=
  List.filter (fun t => negb (PyStr.is_empty t))
    (map PyStr.strip (PyStr.split ","%char raw)).

Definition pull_everything (project_root target_org : string)
    (ignore_conflicts : bool) : prog unit :=
  let cmd := ["sf"; "project"; "retrieve"; "start"; "--target-org"; target_org] in
  let cmd := if ignore_conflicts then cmd ++ ["--ignore-conflicts"] else cmd in
  run cmd (Some project_root) true ;;
  Ret tt.

Definition pull_by_types (project_root target_org : string)
    (ignore_conflicts : bool) : prog unit :=
  picks <- choose_many "Select metadata types to retrieve:" CURATED_TYPES ;;
  print EmptyString ;;
  extra <- ask "Optionally enter additional types (comma-separated), e.g. 'NamedCredential,CustomMetadata':" None ;;
  let extra := PyStr.strip extra in
  let types := picks in
  let types := if negb (PyStr.is_empty extra) then types ++ stripped_items extra else types in
  match types with
  | [] => logger.warning "No types selected. Nothing to do."
  | _ :: _ =>
      let cmd := ["sf"; "project"; "retrieve"; "start"; "--target-org"; target_org] in
      let cmd := fold_left (fun cmd t => cmd ++ ["--metadata"; t +:+ ":*"]) types cmd in
      let cmd := if ignore_conflicts then cmd ++ ["--ignore-conflicts"] else cmd in
      run cmd (Some project_root) true ;;
      Ret tt
  end.

Definition pull_by_paths (project_root target_org : string)
    (ignore_conflicts : bool) : prog unit :=
  logger.info "Enter one or more project paths (relative to repo root)," ;;
  logger.info "for example:" ;;
  logger.info "  force-app/main/default/classes" ;;
  logger.info "  force-app/main/default/objects/Account" ;;
  logger.info "Separate multiple entries with commas." ;;
  print EmptyString ;;
  line <- input "Paths: " ;;
  let raw := PyStr.strip line in
  if PyStr.is_empty raw then
    logger.warning "No paths provided. Nothing to do."
  else
    let paths := stripped_items raw in
    let cmd := ["sf"; "project"; "retrieve"; "start"; "--target-org"; target_org] in
    let cmd := fold_left (fun cmd p => cmd ++ ["--source-dir"; p]) paths cmd in
    let cmd := if ignore_conflicts then cmd ++ ["--ignore-conflicts"] else cmd in
    run cmd (Some project_root) true ;;
    Ret tt.

(** The retrieval that ends [pull_by_manifest], once the manifest is
    known. *)
Definition retrieve_manifest (project_root target_org : string)
    (ignore_conflicts : bool) (manifest_path : string) : prog unit :=
  let cmd := ["sf"; "project"; "retrieve"; "start";
              "--target-org"; target_org;
              "--manifest"; manifest_path] in
  let cmd := if ignore_conflicts then cmd ++ ["--ignore-conflicts"] else cmd in
  run cmd (Some project_root) true ;;
  Ret tt.

Definition pull_by_manifest (project_root target_org : string)
    (ignore_conflicts : bool) : prog unit :=
  logger.info "Choose one:" ;;
  print "  1) Use existing package.xml" ;;
  print "  2) Generate package.xml from org, then retrieve" ;;
  line <- input "Enter 1 or 2: " ;;
  let choice := PyStr.strip line in
  if String.eqb choice "1" then
    let default_manifest := path_join (path_join project_root "manifest") "package.xml" in
    found <- trigger (PathExists default_manifest) ;;
    mp <- ask "Path to package.xml"
            (Some (if found then default_manifest else "manifest/package.xml")) ;;
    manifest_path <- trigger (Resolve project_root mp) ;;
    found <- trigger (PathExists manifest_path) ;;
    if negb found then
      logger.error ("package.xml not found at: " +:+ manifest_path) ;;
      Exit 1
    else retrieve_manifest project_root target_org ignore_conflicts manifest_path
  else if String.eqb choice "2" then
    let out_dir := path_join project_root "manifest" in
    made <- trigger (Mkdir out_dir) ;;
    (if made then Ret tt else Raise OSError) ;;
    run ["sf"; "project"; "generate"; "manifest";
         "--from-org"; target_org;
         "--output-dir"; out_dir]
        (Some project_root) true ;;
    let manifest_path := path_join out_dir "package.xml" in
    found <- trigger (PathExists manifest_path) ;;
    if negb found then
      logger.error "Failed to generate manifest/package.xml" ;;
      Exit 1
    else retrieve_manifest project_root target_org ignore_conflicts manifest_path
  else
    logger.warning "Invalid choice; aborting manifest flow.".

Definition reset_tracking (project_root target_org : string) : prog unit :=
  logger.warning "This will reset local source tracking. Useful when the workspace and org drift." ;;
  go <- ask_bool "Proceed with reset?" false ;;
  if negb go then logger.info "Canceled."
  else
    run ["sf"; "project"; "reset"; "tracking"; "--target-org"; target_org; "--no-prompt"]
        (Some project_root) true ;;
    Ret tt.

(** One turn of the [while True] of [main]: [true] to go round again,
    [false] on [break]. *)
Definition menu_turn (project_root target_org : string)
    (ignore_conflicts : bool) : prog bool :=
  print EmptyString ;;
  logger.step "SELECT ACTION" ;;
  print "  1) Pull ALL source-tracked changes" ;;
  print "  2) Pull by METADATA TYPES" ;;
  print "  3) Pull by PATHS/FOLDERS" ;;
  print "  4) Pull by MANIFEST (package.xml)" ;;
  print "  5) RESET TRACKING (then you can pull)" ;;
  print "  6) Exit" ;;
  line <- input "Choose [1-6]: " ;;
  let choice := PyStr.strip line in
  if String.eqb choice "1" then
    pull_everything project_root target_org ignore_conflicts ;; Ret true
  else if String.eqb choice "2" then
    pull_by_types project_root target_org ignore_conflicts ;; Ret true
  else if String.eqb choice "3" then
    pull_by_paths project_root target_org ignore_conflicts ;; Ret true
  else if String.eqb choice "4" then
    pull_by_manifest project_root target_org ignore_conflicts ;; Ret true
  else if String.eqb choice "5" then
    reset_tracking project_root target_org ;; Ret true
  else if String.eqb choice "6" then
    logger.info "Bye!" ;; Ret false
  else
    logger.warning "Invalid choice. Try again." ;; Ret true.

(** The menu loop of [main], cut after [turns] turns: [true] when the
    operator left it with choice 6, [false] when it is still going. *)
Fixpoint menu (turns : nat) (project_root target_org : string)
    (ignore_conflicts : bool) : prog bool :=
  match turns with
  | O => Ret false
  | S turns' =>
      again <- menu_turn project_root target_org ignore_conflicts ;;
      if again then menu turns' project_root target_org ignore_conflicts
      else Ret true
  end.

(** [main] from the choice of the target org on (its lines 277-309), for
    the values of the two command-line options, the default alias found
    and the project root; the menu loop cut after [turns] turns. *)
Definition main_from_target (arg_target_org : option string)
    (arg_ignore_conflicts : bool) (default_alias : option string)
    (project_root : string) (turns : nat) : prog bool :=
  target_org <-
    (if truthy arg_target_org then Ret (or_empty arg_target_org)
     else ask "Target org alias/username?" (Some (or_empty default_alias))) ;;
  (if PyStr.is_empty target_org then
     logger.error "You must provide a target org alias/username." ;;
     Exit 1
   else Ret tt) ;;
  ignore_conflicts <-
    (if arg_ignore_conflicts then Ret true
     else ask_bool "Ignore conflicts during retrieve?" false) ;;
  menu turns project_root target_org ignore_conflicts.

End pull_metadata.

(** ** Worlds to run the programs in *)

(** The operator types [lines], one per [input()], and then the input
    ends; every child is answered by [procs], every path lookup by [fs];
    paths resolve by joining and directories can be made. *)
Definition scripted (lines : list string) (procs : list string -> proc_result)
    (fs : string -> bool) : world :=
  fun h e =>
    match e as e0 return answer e0 with
    | Log _ _ => tt
    | Print _ => tt
    | Input _ => lines !! length (inputs h)
    | Spawn cmd _ _ => procs cmd
    | Refuse _ _ _ => tt
    | PathExists p => fs p
    | Resolve base rel => path_join base rel
    | Mkdir _ => true
    end.

(** Every child succeeds and writes nothing. *)
Definition all_succeed (cmd : list string) : proc_result :=
  Completed 0 (Some EmptyString).

Definition demo_args : start_development.Args :=
  {| start_development.environment := "FE Hello";
     start_development.review := true;
     start_development.devhub_url := "https://login.salesforce.com";
     start_development.force_devhub_connection := false;
     start_development.preview := false |}.

(** * Specification vocabulary

    The projections, predicates and sample worlds the properties are
    stated with. *)

Import start_development.
Import pull_metadata.

(** ** Names *)

(** What [norm_env] does to one character once the name is stripped. *)
Definition norm_char (c : ascii) : ascii :=
  let l := PyStr.lower_char c in
  if Ascii.eqb l " "%char then "-"%char else l.

(** How often [sep] stands in [s]. *)
Fixpoint count_char (sep : ascii) (s : string) : nat :=
  match s with
  | EmptyString => 0
  | String c s' => (if Ascii.eqb c sep then 1 else 0) + count_char sep s'
  end.

(** An environment name that already ends in "-review", outside review
    mode. *)
Definition args_named_review : Args :=
  {| environment := "fe-hello-review";
     review := false;
     devhub_url := "https://login.salesforce.com";
     force_devhub_connection := false;
     preview := false |}.

(** ** Properties of runs *)

Definition is_spawn (e : effect) : bool :=
  match e with Spawn _ _ _ | Refuse _ _ _ => true | _ => false end.

(** A property of the trace and the outcome of a run. *)
Definition run_prop : Type := forall A : Type, list event -> outcome A -> Prop.

(** [p] has the property in every world, after every history. *)
Definition always (Q : run_prop) {A} (p : prog A) : Prop :=
  forall (w : world) (h : list event), Q A (exec w h p).1 (exec w h p).2.

(** The properties that hold of a sequence as soon as they hold of its
    parts. *)
Class Sequential (Q : run_prop) : Prop := {
  seq_nil : forall A (o : outcome A), Q A [] o;
  seq_app : forall A B t1 (a : A) t2 (o : outcome B),
      Q A t1 (Returned a) -> Q B t2 o -> Q B (t1 ++ t2) o;
  seq_exit : forall A B t c, Q A t (Exited c) -> Q B t (Exited c);
  seq_raise : forall A B t e, Q A t (Raised e) -> Q B t (Raised e);
  seq_quiet : forall e (a : answer e),
      is_spawn e = false -> Q (answer e) [Event e a] (Returned a)
}.

(** The output of the child has to be text for the runner to go on:
    always in passthrough mode, where it is not read. *)
Definition readable (passthrough : bool) (out : option string) : bool :=
  passthrough || match out with Some _ => true | None => false end.

(** What a call of a runner adds to the trace, from the text it announces
    the command with and the result of the child. *)
Definition runner_run (pretty : string) (cmd : list string)
    (cwd : option string) (passthrough : bool) (r : proc_result)
  : list event * outcome (option string) :=
  let announce := Event (Log INFO ("$ " +:+ pretty)) tt in
  let child := Event (Spawn cmd cwd (negb passthrough)) r in
  if embedded_null cmd cwd then
    ([announce; Event (Refuse cmd cwd (negb passthrough)) tt], Raised ValueError)
  else
    match r with
    | NotStarted => ([announce; child], Raised OSError)
    | Completed code out =>
        if negb (readable passthrough out) then
          ([announce; child], Raised UnicodeDecodeError)
        else if (code =? 0)%Z then
          ([announce; child; Event (Log SUCCESS pretty) tt],
           Returned (if passthrough then None else out))
        else
          ([announce; child; Event (Log ERROR ("FAILED: " +:+ pretty)) tt]
             ++ (if negb passthrough && negb (PyStr.is_empty (or_empty out))
                 then [Event (Print (or_empty out)) tt] else []),
           Exited 1)
    end.

(** The command, directory, mode and result of a spawn event. *)
Definition as_spawn (ev : event)
  : option (list string * option string * bool * proc_result) :=
  match ev with
  | Event (Spawn cmd cwd capture) r => Some (cmd, cwd, capture, r)
  | _ => None
  end.

(** What is left of the run after a child that failed: the error line,
    and the captured output when there is some. *)
Definition failure_report (msg : string) (capture : bool) (out : string)
  : list event :=
  Event (Log ERROR msg) tt
  :: (if capture && negb (PyStr.is_empty out) then [Event (Print out) tt] else []).

(** Every child that ends with a return code other than 0 and whose
    output, where it is captured, is text is followed by the failure
    report and nothing else, and the run exits with code 1. *)
Definition failure_is_fatal : run_prop :=
  fun A t o =>
    forall pre ev post cmd cwd capture code out,
      t = pre ++ ev :: post ->
      as_spawn ev = Some (cmd, cwd, capture, Completed code out) ->
      code <> 0%Z ->
      readable (negb capture) out = true ->
      o = Exited 1 /\ exists msg, post = failure_report msg capture (or_empty out).

(** Every child whose output was captured and is no text is the last
    event of the run, which ends with [UnicodeDecodeError] on its way up. *)
Definition garbled_is_fatal : run_prop :=
  fun A t o =>
    forall pre ev post cmd cwd code,
      t = pre ++ ev :: post ->
      as_spawn ev = Some (cmd, cwd, true, Completed code None) ->
      o = Raised UnicodeDecodeError /\ post = [].

(** ** The sequencer *)

(** The command [create_scratch_org] builds for the arguments of [main]. *)
Definition create_command (root : string) (args : Args) : list string :=
  ["sf"; "org"; "create"; "scratch";
   "--definition-file"; SCRATCH_DEF root;
   "--alias"; scratch_alias args;
   "--duration-days"; (if review args then "7" else "30");
   "--set-default"]
  ++ (if preview args then ["--release"; "Preview"] else []).

(** Every command a run of [main] can issue: the branch commands name the
    normalised environment, the org commands the scratch alias. *)
Definition sequencer_commands (root : string) (args : Args) : list (list string) :=
  let env := norm_env (environment args) in
  let scratch_alias := scratch_alias args in
  [ ["git"; "checkout"; "main"];
    ["git"; "pull"; "origin"; "main"];
    ["git"; "checkout"; "-b"; env; "main"];
    ["git"; "branch"; "--list"; env];
    ["git"; "branch"; "-D"; env];
    ["git"; "checkout"; "-b"; env; "origin/" +:+ env];
    ["sf"; "--version"];
    ["sf"; "org"; "list"];
    ["sf"; "org"; "login"; "web"; "--alias"; "DevHub"; "--set-default-dev-hub";
     "--instance-url"; devhub_url args];
    create_command root args;
    ["sf"; "project"; "deploy"; "start"; "--target-org"; scratch_alias;
     "--source-dir"; SOURCE_DIR root];
    ["sf"; "org"; "open"; "--target-org"; scratch_alias] ].

(** A machine without a working [sf]: the version query ends with return
    code 127 and a message; everything else succeeds silently. *)
Definition sf_missing (cmd : list string) : proc_result :=
  if starts_with ["sf"] cmd then Completed 127 (Some "sf: command not found")
  else Completed 0 (Some EmptyString).

Definition sf_missing_world : world := scripted [] sf_missing (fun _ => true).

Definition sf_missing_trace : list event :=
  Eval vm_compute in (exec sf_missing_world [] (main "/repo" demo_args)).1.

(** The sequencer as the specification words it: one alias, suffix
    included, handed to every stage that takes a name. *)
Definition main_as_specified (root : string) (args : Args) : prog unit :=
  logger.header "Scratch Org Script" ;;
  let raw_env := environment args in
  let scratch_alias := scratch_alias args in
  logger.status ("Environment (raw): " +:+ raw_env) ;;
  logger.status ("Normalized alias: " +:+ scratch_alias) ;;
  git_prepare_branch scratch_alias (review args) ;;
  logger.success "Git branch ready." ;;
  check_sfcli_exists ;;
  login_devhub (devhub_url args) (force_devhub_connection args) ;;
  logger.success "Dev Hub ready." ;;
  create_scratch_org root scratch_alias (review args) (preview args) ;;
  logger.success "Scratch org created." ;;
  deploy_source_metadata root scratch_alias ;;
  logger.success "Source deployed." ;;
  open_scratch_org scratch_alias (review args) ;;
  logger.success "All done. Happy building!".

(** A machine on which every stage goes through: the Dev Hub is
    authenticated and every command succeeds. *)
Definition ready (cmd : list string) : proc_result :=
  if starts_with ["sf"; "org"; "list"] cmd
  then Completed 0 (Some "DevHub  hub@example.com  Connected")
  else Completed 0 (Some EmptyString).

Definition ready_world : world := scripted [] ready (fun _ => true).

(** Every command spawned satisfies [P]. *)
Definition spawns_only (P : list string -> Prop) : run_prop :=
  fun A t o => Forall P (spawned t).

(** [Q] holds of the trace and the outcome of [p] in every world, after
    every history. *)
Definition holds {A} (p : prog A) (Q : list event -> outcome A -> Prop) : Prop :=
  forall (w : world) (h : list event), Q (exec w h p).1 (exec w h p).2.

Definition not_create (cmd : list string) : Prop :=
  starts_with ["sf"; "org"; "create"; "scratch"] cmd = false.

Definition not_listing (cmd : list string) : Prop :=
  starts_with ["sf"; "org"; "list"] cmd = false.

(** What [login_devhub] leaves behind: no scratch org was asked for; if it
    returns, the orgs were listed twice and the second list names the Dev
    Hub; if it exits, the code is 1; if it raises, the second list was
    never obtained. *)
Definition login_post (t : list event) (o : outcome unit) : Prop :=
  Forall not_create (spawned t)
  /\ match o with
     | Returned _ =>
         exists o1 o2, outputs_of ["sf"; "org"; "list"] t = [o1; o2]
                       /\ PyStr.contains "DevHub" o2 = true
     | Exited c => c = 1%Z
     | Raised _ => length (outputs_of ["sf"; "org"; "list"] t) < 2
     end.

Definition quiet_cmd (cmd : list string) : Prop := not_create cmd /\ not_listing cmd.

(** If the orgs were listed twice and the second list does not name the
    Dev Hub, the run exits with code 1 and never asks for a scratch org. *)
Definition aborts_after_failed_check (t : list event) (o : outcome unit) : Prop :=
  forall o1 o2,
    outputs_of ["sf"; "org"; "list"] t = [o1; o2] ->
    PyStr.contains "DevHub" o2 = false ->
    o = Exited 1 /\ Forall not_create (spawned t).

(** A machine whose org list never shows the Dev Hub. *)
Definition no_devhub_world : world := scripted [] all_succeed (fun _ => true).

(** ** The multi-select prompt *)

(** The index a token stands for, when the loop of [choose_many] accepts
    it: stripped, not empty, all digits, a decimal, and within 1..n. *)
Definition token_index (options : list string) (token : string) : option N :=
  let token := PyStr.strip token in
  if PyStr.is_empty token || negb (PyStr.isdigit token) then None
  else match PyStr.int token with
       | Some idx =>
           if ((1 <=? idx) && (idx <=? N.of_nat (length options)))%N
           then Some idx else None
       | None => None
       end.

(** The option a token picks. *)
Definition token_pick (options : list string) (token : string) : option string :=
  match token_index options token with
  | Some idx => options !! N.to_nat (idx - 1)
  | None => None
  end.

(** The warning a token earns. *)
Definition token_warning (options : list string) (token : string) : option string :=
  let token := PyStr.strip token in
  if PyStr.is_empty token then None
  else if negb (PyStr.isdigit token) then
    Some ("Ignoring '" +:+ token +:+ "' (not a number).")
  else match PyStr.int token with
       | Some idx =>
           if ((1 <=? idx) && (idx <=? N.of_nat (length options)))%N
           then None
           else Some ("Ignoring '" +:+ token +:+ "' (out of range).")
       | None => None
       end.

(** The tokens [int] chokes on: digits, but not all decimal or too
    many. *)
Definition token_raises (token : string) : bool :=
  let token := PyStr.strip token in
  negb (PyStr.is_empty token) && PyStr.isdigit token
  && match PyStr.int token with Some _ => false | None => true end.

Definition warning_event (msg : string) : event := Event (Log WARNING msg) tt.

(** The numbered list [print_options] prints. *)
Fixpoint option_lines (i : nat) (options : list string) : list event :=
  match options with
  | [] => []
  | opt :: rest =>
      Event (Print ("  " +:+ PyStr.fmt_2d i +:+ ") " +:+ opt)) tt
      :: option_lines (S i) rest
  end.

Definition choose_prompt : string :=
  "Enter number(s) separated by comma, or leave blank to cancel: ".

(** What [choose_many] shows before it reads the line. *)
Definition choose_header (prompt : string) (options : list string) : list event :=
  Event (Print EmptyString) tt :: Event (Log INFO prompt) tt
  :: option_lines 1 options ++ [Event (Print EmptyString) tt].

(** The run of the token loop: it returns the picks so far followed by
    the picks of the tokens, having warned about each token it skipped, or
    it stops at the first token [int] rejects. *)
Definition picked (options tokens picks : list string)
    (t : list event) (o : outcome (list string)) : Prop :=
  match o with
  | Returned result =>
      existsb token_raises tokens = false
      /\ result = picks ++ omap (token_pick options) tokens
      /\ t = map warning_event (omap (token_warning options) tokens)
  | Raised e =>
      e = ValueError
      /\ exists before token after,
           tokens = before ++ token :: after
           /\ token_raises token = true
           /\ t = map warning_event (omap (token_warning options) before)
  | Exited _ => False
  end.

(** The run of [choose_many]: the header, the line read, and the token
    loop over the pieces of the stripped line. *)
Definition chosen (prompt : string) (options : list string)
    (t : list event) (o : outcome (list string)) : Prop :=
  exists a t',
    t = choose_header prompt options ++ Event (Input choose_prompt) a :: t'
    /\ match a with
       | None => t' = [] /\ o = Raised EOFError
       | Some line => picked options (PyStr.split ","%char (PyStr.strip line)) [] t' o
       end.

(** The operator answers the multi-select prompt with "1,3,9,x". *)
Definition picks_world : world := scripted ["1,3,9,x"] all_succeed (fun _ => true).

(** The operator types the third index twice. *)
Definition repeat_world : world := scripted ["3,1,3"] all_succeed (fun _ => true).

(** The operator asks for an existing manifest and names a file that is
    not there. *)
Definition no_manifest_world : world :=
  scripted ["1"; "nope.xml"] all_succeed (fun _ => false).

(** ** The pull handlers *)

(** The retrieval command for a target org, a filter flag, the values to
    filter on and the conflict toggle. *)
Definition retrieve_command (target_org flag : string) (items : list string)
    (ignore_conflicts : bool) : list string :=
  ["sf"; "project"; "retrieve"; "start"; "--target-org"; target_org]
  ++ flat_map (fun item => [flag; item]) items
  ++ (if ignore_conflicts then ["--ignore-conflicts"] else []).

(** The types the second prompt of [pull_by_types] adds. *)
Definition extra_types (line : string) : list string :=
  let extra := PyStr.strip (PyStr.strip line) in
  if negb (PyStr.is_empty extra) then stripped_items extra else [].

(** The combined selection of [pull_by_types]: the catalog picks of the
    first line, then the extra types of the second. *)
Definition selected_types (line1 line2 : string) : list string :=
  omap (token_pick CURATED_TYPES) (PyStr.split ","%char (PyStr.strip line1))
  ++ extra_types line2.

Definition no_types_warning : string := "No types selected. Nothing to do.".

(** What a run of [pull_by_types] that read two lines did. *)
Definition types_pulled (org : string) (ic : bool)
    (t : list event) (o : outcome unit) : Prop :=
  (spawned t = [] \/ exists line1 line2, inputs t = [Some line1; Some line2])
  /\ forall line1 line2,
       inputs t = [Some line1; Some line2] ->
       let tokens := PyStr.split ","%char (PyStr.strip line1) in
       match selected_types line1 line2 with
       | [] =>
           spawned t = [] /\ o = Returned tt
           /\ warnings t = omap (token_warning CURATED_TYPES) tokens ++ [no_types_warning]
       | types =>
           spawned t
           = [retrieve_command org "--metadata" (map (fun ty => ty +:+ ":*") types) ic]
           /\ warnings t = omap (token_warning CURATED_TYPES) tokens
       end.

(** The operator picks index 99 of the catalog and adds nothing. *)
Definition out_of_range_world : world := scripted ["99"; EmptyString] all_succeed (fun _ => true).

(** The operator leaves both prompts of [pull_by_types] blank. *)
Definition blank_world : world := scripted [EmptyString; EmptyString] all_succeed (fun _ => true).

Definition retrieve_prefix : list string := ["sf"; "project"; "retrieve"; "start"].

(** The operator, with the conflict toggle off, names a path that reads
    like the conflict flag. *)
Definition flag_path_world : world := scripted ["--ignore-conflicts"] all_succeed (fun _ => true).

(** The operator names two folders, with the conflict toggle set. *)
Definition two_paths_world : world :=
  scripted ["force-app/main/default/classes, force-app/main/default/lwc"]
    all_succeed (fun _ => true).

(** ** Further vocabulary *)

(** The characters below 128. *)
Definition is_ascii (c : ascii) : bool := (PyStr.code c <? 128)%N.

(** The tokens the loop of [choose_many] passes over in silence. *)
Definition blank_token (token : string) : bool := PyStr.is_empty (PyStr.strip token).

(** The answers [ask_bool] takes for a yes. *)
Definition affirmative (line : string) : bool :=
  let val := PyStr.lower (PyStr.strip line) in
  String.eqb val "y" || String.eqb val "yes".

(** The operator answers the paths prompt with a lone comma. *)
Definition comma_world : world := scripted [","] all_succeed (fun _ => true).

(** The command that writes the manifest of the org into [root]/manifest. *)
Definition generate_command (root org : string) : list string :=
  ["sf"; "project"; "generate"; "manifest";
   "--from-org"; org;
   "--output-dir"; path_join root "manifest"].

(** The manifest [generate_command] is to leave behind. *)
Definition generated_manifest (root : string) : string :=
  path_join (path_join root "manifest") "package.xml".

(** The operator asks for a fresh manifest; the generation succeeds but
    leaves no file. *)
Definition no_file_world : world := scripted ["2"] all_succeed (fun _ => false).

(** The operator answers the manifest sub-menu with 3. *)
Definition wrong_choice_world : world := scripted ["3"] all_succeed (fun _ => true).

(** The six answers the menu knows. *)
Definition menu_choices : list string := ["1"; "2"; "3"; "4"; "5"; "6"].

(** What one turn of the menu guarantees: it asks to stop only after the
    answer 6, having spawned nothing; and an unknown answer costs one
    warning and nothing else. *)
Definition turn_post (t : list event) (o : outcome bool) : Prop :=
  (o = Returned false ->
   exists line, inputs t = [Some line] /\ PyStr.strip line = "6" /\ spawned t = [])
  /\ (forall line,
        hd_error (inputs t) = Some (Some line) ->
        ~ In (PyStr.strip line) menu_choices ->
        o = Returned true /\ inputs t = [Some line] /\ spawned t = []
        /\ warnings t = ["Invalid choice. Try again."]).

(** The operator mistypes twice, then leaves. *)
Definition leaving_world : world := scripted ["x"; "7"; "6"] all_succeed (fun _ => true).

(** The command [create_scratch_org] is to spawn. *)
Definition scratch_command (root alias : string) (review_mode preview_mode : bool)
  : list string :=
  ["sf"; "org"; "create"; "scratch";
   "--definition-file"; SCRATCH_DEF root;
   "--alias"; alias;
   "--duration-days"; (if review_mode then "7" else "30");
   "--set-default"]
  ++ (if preview_mode then ["--release"; "Preview"] else []).

(** The command [deploy_source_metadata] is to spawn. *)
Definition deploy_command (root alias : string) : list string :=
  ["sf"; "project"; "deploy"; "start";
   "--target-org"; alias;
   "--source-dir"; SOURCE_DIR root].

(** The commands spawned with the directory each was to run in. *)
Definition spawned_in (t : list event) : list (list string * option string) :=
  omap (fun ev => match ev with
                  | Event (Spawn cmd cwd _) _ => Some (cmd, cwd)
                  | Event (Refuse cmd cwd _) _ => Some (cmd, cwd)
                  | _ => None
                  end) t.

(** The git commands of [git_prepare_branch], in order, given what
    [git branch --list] wrote. *)
Definition branch_commands (env : string) (review_mode : bool) (listed : string)
  : list (list string) :=
  [["git"; "checkout"; "main"]; ["git"; "pull"; "origin"; "main"]]
  ++ (if review_mode then
        [["git"; "branch"; "--list"; env]]
        ++ (if PyStr.contains env listed then [["git"; "branch"; "-D"; env]] else [])
        ++ [["git"; "checkout"; "-b"; env; "origin/" +:+ env]]
      else [["git"; "checkout"; "-b"; env; "main"]]).

(** The commands of a whole run of [main], in order, given what
    [git branch --list] and the first [sf org list] wrote. *)
Definition pipeline (root : string) (args : Args) (listed orgs : string)
  : list (list string) :=
  branch_commands (norm_env (environment args)) (review args) listed
  ++ [["sf"; "--version"]; ["sf"; "org"; "list"]]
  ++ (if force_devhub_connection args || negb (PyStr.contains "DevHub" orgs)
      then [["sf"; "org"; "login"; "web"; "--alias"; "DevHub";
             "--set-default-dev-hub"; "--instance-url"; devhub_url args]]
      else [])
  ++ [["sf"; "org"; "list"];
      create_command root args;
      deploy_command root (scratch_alias args);
      ["sf"; "org"; "open"; "--target-org"; scratch_alias args]].

(** The return codes of the children that ran to their end, in order. *)
Definition return_codes (t : list event) : list Z :=
  omap (fun ev => match ev with
                  | Event (Spawn _ _ _) (Completed code _) => Some code
                  | _ => None
                  end) t.

(** The calls of a trace: each command with the result of its child,
    [None] for a call that was refused. *)
Definition children (t : list event) : list (list string * option proc_result) :=
  omap (fun ev => match ev with
                  | Event (Spawn cmd _ _) r => Some (cmd, Some (r : proc_result))
                  | Event (Refuse cmd _ _) _ => Some (cmd, None)
                  | _ => None
                  end) t.

Definition child_output (cmd : list string) (child : list string * option proc_result)
  : option string :=
  match child.2 with
  | Some (Completed _ out) => if starts_with cmd child.1 then out else None
  | _ => None
  end.

Definition child_code (child : list string * option proc_result) : option Z :=
  match child.2 with
  | Some (Completed code _) => Some code
  | _ => None
  end.

(** One of the texts [main] puts into its commands holds a NUL. *)
Definition nul_in_arguments (root : string) (args : Args) : bool :=
  has_nul root || has_nul (environment args) || has_nul (devhub_url args).

(** The ways a run of the steps of [main] can end. *)
Definition ends_well (root : string) (args : Args) (o : outcome unit) : Prop :=
  o = Returned tt \/ o = Exited 1 \/ o = Raised OSError
  \/ o = Raised UnicodeDecodeError
  \/ (o = Raised ValueError /\ nul_in_arguments root args = true).

(** What the children of a run of [main] show: the commands are the first
    ones of the pipeline, all of them when the run returns, and then no
    child failed; and the run ends in one of the known ways. *)
Definition pipeline_check (root : string) (args : Args)
    (cs : list (list string * option proc_result)) (o : outcome unit) : Prop :=
  let listed := hd EmptyString (omap (child_output ["git"; "branch"; "--list"]) cs) in
  let orgs := hd EmptyString (omap (child_output ["sf"; "org"; "list"]) cs) in
  map fst cs `prefix_of` pipeline root args listed orgs
  /\ (o = Returned tt ->
      map fst cs = pipeline root args listed orgs
      /\ Forall (fun code => code = 0%Z) (omap child_code cs))
  /\ ends_well root args o.

(** Every child is announced just before it is spawned, with the text
    [fmt] makes of its command, and its success is logged just after it,
    unless its output was captured and is no text. *)
Definition announced_with (fmt : list string -> string) : run_prop :=
  fun A t o =>
    forall pre ev post cmd cwd capture r,
      t = pre ++ ev :: post ->
      as_spawn ev = Some (cmd, cwd, capture, r) ->
      (exists pre', pre = pre' ++ [Event (Log INFO ("$ " +:+ fmt cmd)) tt])
      /\ (forall out, r = Completed 0 out ->
             readable (negb capture) out = true ->
             exists post', post = Event (Log SUCCESS (fmt cmd)) tt :: post').

(** How [run_subprocess] and [run] write a command. *)
Definition plain_line (cmd : list string) : string := PyStr.join " " cmd.
Definition quoted_line (cmd : list string) : string :=
  PyStr.join " " (map PyStr.shlex_quote cmd).




(** The lines written with [print()], in order. *)
Definition printed (t : list event) : list string :=
  omap (fun ev => match ev with
                  | Event (Print line) _ => Some line
                  | _ => None
                  end) t.





(** The lines logged as errors, in order. *)
Definition errors (t : list event) : list string :=
  omap (fun ev => match ev with
                  | Event (Log ERROR msg) _ => Some msg
                  | _ => None
                  end) t.

(** A machine whose [sf --version] ends with return code 1 after writing
    bytes that are no text; everything else succeeds silently. *)
Definition sf_garbled (cmd : list string) : proc_result :=
  if starts_with ["sf"; "--version"] cmd then Completed 1 None
  else Completed 0 (Some EmptyString).

Definition sf_garbled_world : world := scripted [] sf_garbled (fun _ => true).

(** What [resolve()] was asked and what it returned, in order: the
    directory, the path under it, the resolved path. *)
Definition resolutions (t : list event) : list (string * string * string) :=
  omap (fun ev => match ev with
                  | Event (Resolve base rel) p => Some (base, rel, p : string)
                  | _ => None
                  end) t.

(** The manifest [pull_by_manifest] proposes with choice 1. *)
Definition default_manifest (root : string) : string :=
  path_join (path_join root "manifest") "package.xml".

(** The path the operator names with the answer to the path prompt, given
    whether the default manifest is there. *)
Definition named_manifest (root : string) (default_found : bool) (reply : string)
  : string :=
  let val := PyStr.strip reply in
  if PyStr.is_empty val
  then (if default_found then default_manifest root else "manifest/package.xml")
  else val.

(** [path] is the manifest the run selected: with choice 1 the file the
    named path resolves to under the project root, found there; with
    choice 2 the generated manifest, found after the generation. *)
Definition manifest_selected (root : string) (t : list event) (path : string) : Prop :=
  (exists line reply default_found,
      inputs t = [Some line; Some reply]
      /\ PyStr.strip line = "1"
      /\ lookups t = [(default_manifest root, default_found); (path, true)]
      /\ resolutions t = [(root, named_manifest root default_found reply, path)])
  \/ (exists line,
         inputs t = [Some line]
         /\ PyStr.strip line = "2"
         /\ lookups t = [(path, true)]
         /\ resolutions t = []
         /\ path = generated_manifest root).

(** The operator asks for an existing manifest and names one, while the
    default manifest is there too. *)
Definition other_manifest_world : world :=
  scripted ["1"; "other/package.xml"] all_succeed (fun _ => true).

(** A token [shlex.quote] leaves as it is. *)
Definition plain_token (token : string) : bool :=
  negb (PyStr.is_empty token) && PyStr.sforall PyStr.shell_safe_char token.

(** Nothing is where the stages look, and the operator says nothing. *)
Definition bare_world : world := scripted [EmptyString] all_succeed (fun _ => false).

(** The operator gives no target org. *)
Definition no_target_world : world := scripted ["   "] all_succeed (fun _ => true).

(** * Properties *)

(** ** Strings *)

Section StringFacts.
Import PyStr.

Lemma norm_char_idem c : norm_char (norm_char c) = norm_char c.
Proof. destruct c as [[] [] [] [] [] [] [] []]; reflexivity. Qed.

Lemma norm_char_keeps_nonspace c :
  isspace_char c = false -> isspace_char (norm_char c) = false.
Proof. destruct c as [[] [] [] [] [] [] [] []]; intros H; try reflexivity; discriminate H. Qed.

Lemma replace_lower s :
  replace " "%char "-" (lower s) = smap norm_char s.
Proof.
  unfold lower. induction s as [|c s IH]; simpl; [reflexivity|].
  unfold norm_char at 1. destruct (Ascii.eqb (lower_char c) " "); simpl; now rewrite IH.
Qed.

Lemma smap_smap f s : (forall c, f (f c) = f c) -> smap f (smap f s) = smap f s.
Proof. intros Hf. induction s as [|c s IH]; simpl; [reflexivity|]. now rewrite Hf, IH. Qed.

Lemma is_empty_smap f s : is_empty (smap f s) = is_empty s.
Proof. now destruct s. Qed.

Lemma lstrip_idem s : lstrip (lstrip s) = lstrip s.
Proof.
  induction s as [|c s IH]; simpl; [reflexivity|].
  destruct (isspace_char c) eqn:E; [exact IH|]. simpl. now rewrite E.
Qed.

Lemma rstrip_idem s : rstrip (rstrip s) = rstrip s.
Proof.
  induction s as [|c s IH]; simpl; [reflexivity|].
  destruct (isspace_char c && is_empty (rstrip s)) eqn:E; simpl; [reflexivity|].
  now rewrite IH, E.
Qed.

Lemma lstrip_rstrip s : lstrip s = s -> lstrip (rstrip s) = rstrip s.
Proof.
  destruct s as [|c s]; simpl; [reflexivity|].
  destruct (isspace_char c) eqn:E; simpl.
  - intros H. exfalso.
    assert (Hlen : forall u, String.length (lstrip u) <= String.length u).
    { induction u as [|d u IHu]; simpl; [lia|]. destruct (isspace_char d); simpl; lia. }
    specialize (Hlen s). rewrite H in Hlen. simpl in Hlen. lia.
  - intros _. now rewrite E.
Qed.

Lemma strip_clean s : lstrip (strip s) = strip s /\ rstrip (strip s) = strip s.
Proof.
  unfold strip. split.
  - apply lstrip_rstrip, lstrip_idem.
  - apply rstrip_idem.
Qed.

Lemma lstrip_smap s :
  lstrip s = s -> lstrip (smap norm_char s) = smap norm_char s.
Proof.
  destruct s as [|c s]; simpl; [reflexivity|].
  destruct (isspace_char c) eqn:E.
  - intros H. exfalso.
    assert (Hlen : forall u, String.length (lstrip u) <= String.length u).
    { induction u as [|d u IHu]; simpl; [lia|]. destruct (isspace_char d); simpl; lia. }
    specialize (Hlen s). rewrite H in Hlen. simpl in Hlen. lia.
  - intros _. now rewrite (norm_char_keeps_nonspace _ E).
Qed.

Lemma rstrip_smap s :
  rstrip s = s -> rstrip (smap norm_char s) = smap norm_char s.
Proof.
  induction s as [|c s IH]; simpl; [reflexivity|].
  destruct (isspace_char c && is_empty (rstrip s)) eqn:E; [discriminate|].
  intros H. injection H as H. rewrite H in E. rewrite (IH H), is_empty_smap.
  destruct (isspace_char c) eqn:Ec.
  - simpl in E. rewrite E, andb_false_r. reflexivity.
  - now rewrite (norm_char_keeps_nonspace _ Ec).
Qed.

Lemma strip_smap_strip s :
  strip (smap norm_char (strip s)) = smap norm_char (strip s).
Proof.
  destruct (strip_clean s) as [Hl Hr].
  unfold strip at 1. rewrite (lstrip_smap _ Hl). now apply rstrip_smap.
Qed.

Lemma endswith_refl s : endswith s s = true.
Proof. destruct s; simpl; now rewrite ?String.eqb_refl, ?Ascii.eqb_refl. Qed.

Lemma endswith_app suffix s : endswith suffix (s +:+ suffix) = true.
Proof.
  induction s as [|c s IH]; simpl.
  - apply endswith_refl.
  - rewrite IH. apply orb_true_r.
Qed.

(** Stripping removes no separator, so it leaves the number of pieces. *)
Lemma split_length sep s : length (split sep s) = S (count_char sep s).
Proof.
  induction s as [|c s IH]; simpl; [reflexivity|].
  destruct (Ascii.eqb c sep); simpl; [now rewrite IH|].
  destruct (split sep s); simpl in *; lia.
Qed.

Lemma count_lstrip sep s :
  isspace_char sep = false -> count_char sep (lstrip s) = count_char sep s.
Proof.
  intros Hsep. induction s as [|c s IH]; simpl; [reflexivity|].
  destruct (isspace_char c) eqn:Ec; [|reflexivity].
  destruct (Ascii.eqb_spec c sep) as [->|_]; [congruence|]. exact IH.
Qed.

Lemma count_rstrip sep s :
  isspace_char sep = false -> count_char sep (rstrip s) = count_char sep s.
Proof.
  intros Hsep. induction s as [|c s IH]; simpl; [reflexivity|].
  destruct (isspace_char c && is_empty (rstrip s)) eqn:E; simpl.
  - apply andb_true_iff in E as [Ec Ee].
    destruct (Ascii.eqb_spec c sep) as [->|_]; [congruence|].
    rewrite <- IH. now destruct (rstrip s).
  - now rewrite IH.
Qed.

Lemma split_strip_length sep s :
  isspace_char sep = false -> length (split sep (strip s)) = length (split sep s).
Proof.
  intros Hsep. rewrite !split_length. unfold strip.
  now rewrite count_rstrip, count_lstrip.
Qed.

End StringFacts.

(** ** The environment alias *)

(** C3: [norm_env] is idempotent: normalising a normalised name changes
    nothing; and "FE Hello" normalises to "fe-hello". *)
Theorem norm_env_idempotent :
  (forall name : string, norm_env (norm_env name) = norm_env name)
  /\ norm_env "FE Hello" = "fe-hello".
Proof.
  split; [|reflexivity].
  intros name. unfold norm_env.
  rewrite !replace_lower, strip_smap_strip.
  apply smap_smap, norm_char_idem.
Qed.

(** C8, as stated, fails: outside review mode the alias of the environment
    "fe-hello-review" does carry the "-review" suffix. *)
Lemma alias_suffix_outside_review_mode :
  review args_named_review = false
  /\ PyStr.endswith "-review" (scratch_alias args_named_review) = true.
Proof. split; reflexivity. Qed.

(** C8, amended: in review mode the alias is the normalised name with
    "-review" appended, and so ends in it; outside review mode it is the
    normalised name itself, nothing appended, and ends in "-review" only
    when the normalised name does. "FE Hello" in review mode gives
    "fe-hello-review", and [main] announces that alias. *)
Theorem scratch_alias_review_suffix :
  forall args : Args,
    scratch_alias args
    = (if review args then norm_env (environment args) +:+ "-review"
       else norm_env (environment args))
    /\ PyStr.endswith "-review" (scratch_alias args)
       = (review args || PyStr.endswith "-review" (norm_env (environment args)))
    /\ scratch_alias demo_args = "fe-hello-review"
    /\ forall (w : world) (root : string),
         (exec w [] (main root args)).1 !! 2
         = Some (Event (Log INFO ("Normalized alias: " +:+ scratch_alias args)) tt).
Proof.
  intros args. unfold scratch_alias.
  repeat split; try reflexivity.
  destruct (review args); simpl; [apply endswith_app | reflexivity].
Qed.

(** ** Runs *)

Lemma exec_bind {A B} (w : world) (p : prog A) (f : A -> prog B) :
  forall h,
    exec w h (bind p f)
    = match (exec w h p).2 with
      | Returned a =>
          ((exec w h p).1 ++ (exec w (h ++ (exec w h p).1) (f a)).1,
           (exec w (h ++ (exec w h p).1) (f a)).2)
      | Exited c => ((exec w h p).1, Exited c)
      | Raised e => ((exec w h p).1, Raised e)
      end.
Proof.
  induction p as [a|c|e|e k IH]; intros h; simpl; try reflexivity.
  - rewrite app_nil_r. now destruct (exec w h (f a)).
  - rewrite IH.
    destruct (exec w (h ++ [Event e (reply w h e)]) (k (reply w h e))) as [t o].
    simpl. destruct o; simpl; try reflexivity.
    now rewrite <- app_assoc.
Qed.

Section Always.
Context (Q : run_prop) `{!Sequential Q}.

Lemma always_ret {A} (a : A) : always Q (Ret a).
Proof. intros w h. apply seq_nil. Qed.

Lemma always_exit {A} c : always Q (@Exit A c).
Proof. intros w h. apply seq_nil. Qed.

Lemma always_raise {A} e : always Q (@Raise A e).
Proof. intros w h. apply seq_nil. Qed.

Lemma always_trigger e : is_spawn e = false -> always Q (trigger e).
Proof. intros He w h. simpl. now apply seq_quiet. Qed.

Lemma always_bind {A B} (p : prog A) (f : A -> prog B) :
  always Q p -> (forall a, always Q (f a)) -> always Q (bind p f).
Proof.
  intros Hp Hf w h. rewrite exec_bind.
  specialize (Hp w h). destruct (exec w h p) as [t o]. simpl in *.
  destruct o as [a|c|e]; simpl.
  - eapply seq_app; [exact Hp | apply Hf].
  - eapply seq_exit, Hp.
  - eapply seq_raise, Hp.
Qed.

Lemma always_vis {A} e (k : answer e -> prog A) :
  is_spawn e = false -> (forall a, always Q (k a)) -> always Q (Vis e k).
Proof.
  intros He Hk. change (Vis e k) with (bind (trigger e) k).
  apply always_bind; [now apply always_trigger | exact Hk].
Qed.

Lemma always_log lvl msg : always Q (trigger (Log lvl msg)).
Proof. now apply (always_trigger (Log lvl msg)). Qed.

Lemma always_print line : always Q (print line).
Proof. now apply (always_trigger (Print line)). Qed.

Lemma always_exists path : always Q (trigger (PathExists path)).
Proof. now apply (always_trigger (PathExists path)). Qed.

Lemma always_resolve base rel : always Q (trigger (Resolve base rel)).
Proof. now apply (always_trigger (Resolve base rel)). Qed.

Lemma always_mkdir path : always Q (trigger (Mkdir path)).
Proof. now apply (always_trigger (Mkdir path)). Qed.

Lemma always_input prompt : always Q (input prompt).
Proof.
  apply always_bind; [now apply always_trigger|].
  intros [line|]; [apply always_ret | apply always_raise].
Qed.

End Always.

(** *** The two process runners *)

Lemma exec_run_subprocess w h cmd_list passthrough cwd :
  let cmd_str := PyStr.join " " cmd_list in
  exec w h (run_subprocess cmd_list passthrough cwd)
  = runner_run cmd_str cmd_list cwd passthrough
      (w (h ++ [Event (Log INFO ("$ " +:+ cmd_str)) tt])
         (Spawn cmd_list cwd (negb passthrough))).
Proof.
  unfold run_subprocess, runner_run, subprocess_run.
  destruct (embedded_null cmd_list cwd); [now destruct passthrough|].
  destruct passthrough; simpl.
  - destruct (w _ _) as [|code out]; simpl; [reflexivity|].
    destruct (code =? 0)%Z; reflexivity.
  - destruct (w _ _) as [|code [out|]]; simpl; try reflexivity.
    destruct (code =? 0)%Z; simpl; [reflexivity|].
    destruct out; reflexivity.
Qed.

Lemma exec_run w h cmd cwd passthrough :
  let pretty := PyStr.join " " (map PyStr.shlex_quote cmd) in
  exec w h (pull_metadata.run cmd cwd passthrough)
  = runner_run pretty cmd cwd passthrough
      (w (h ++ [Event (Log INFO ("$ " +:+ pretty)) tt])
         (Spawn cmd cwd (negb passthrough))).
Proof.
  unfold pull_metadata.run, runner_run, subprocess_run.
  destruct (embedded_null cmd cwd); [now destruct passthrough|].
  destruct passthrough; simpl.
  - destruct (w _ _) as [|code out]; simpl; [reflexivity|].
    destruct (code =? 0)%Z; reflexivity.
  - destruct (w _ _) as [|code [out|]]; simpl; try reflexivity.
    destruct (code =? 0)%Z; simpl; [reflexivity|].
    destruct out; reflexivity.
Qed.

(** *** A failed child ends the program *)

Ltac split_trace H :=
  repeat match type of H with
    | [] = _ ++ _ :: _ => destruct (app_cons_not_nil _ _ _ H)
    | _ :: _ = ?pre ++ _ :: _ =>
        destruct pre; simpl in H;
        [ injection H as <- <- | injection H as <- H ]
    end.

#[local] Instance failure_is_fatal_sequential : Sequential failure_is_fatal.
Proof.
  split.
  - intros A o pre ev post cmd cwd capture code out H. split_trace H.
  - intros A B t1 a t2 o H1 H2 pre ev post cmd cwd capture code out H Hev Hcode Hout.
    apply app_eq_inv in H as [(k & -> & Hk) | (k & -> & ->)].
    + destruct k as [|ev' k]; simpl in Hk.
      * subst t2. rewrite app_nil_r in H1. now apply (H2 [] ev post cmd cwd capture code out).
      * injection Hk as <- ->.
        destruct (H1 pre ev k cmd cwd capture code out eq_refl Hev Hcode Hout) as [? _].
        discriminate.
    + now apply (H2 k ev post cmd cwd capture code out).
  - intros A B t c H pre ev post cmd cwd capture code out Ht Hev Hcode Hout.
    destruct (H pre ev post cmd cwd capture code out Ht Hev Hcode Hout) as [Ho Hpost].
    split; [congruence | exact Hpost].
  - intros A B t e H pre ev post cmd cwd capture code out Ht Hev Hcode Hout.
    destruct (H pre ev post cmd cwd capture code out Ht Hev Hcode Hout) as [Ho _].
    discriminate.
  - intros e a He pre ev post cmd cwd capture code out H Hev.
    split_trace H. destruct e; simpl in *; discriminate.
Qed.



#[local] Instance garbled_is_fatal_sequential : Sequential garbled_is_fatal.
Proof.
  split.
  - intros A o pre ev post cmd cwd code H. split_trace H.
  - intros A B t1 a t2 o H1 H2 pre ev post cmd cwd code H Hev.
    apply app_eq_inv in H as [(k & -> & Hk) | (k & -> & ->)].
    + destruct k as [|ev' k]; simpl in Hk.
      * subst t2. now apply (H2 [] ev post cmd cwd code).
      * injection Hk as <- ->.
        destruct (H1 pre ev k cmd cwd code eq_refl Hev) as [? _].
        discriminate.
    + now apply (H2 k ev post cmd cwd code).
  - intros A B t c H pre ev post cmd cwd code Ht Hev.
    destruct (H pre ev post cmd cwd code Ht Hev) as [Ho Hpost]. discriminate Ho.
  - intros A B t e H pre ev post cmd cwd code Ht Hev.
    destruct (H pre ev post cmd cwd code Ht Hev) as [Ho Hpost].
    split; [congruence | exact Hpost].
  - intros e a He pre ev post cmd cwd code H Hev.
    split_trace H. destruct e; simpl in *; discriminate.
Qed.

Lemma run_subprocess_garbled cmd_list passthrough cwd :
  always garbled_is_fatal (run_subprocess cmd_list passthrough cwd).
Proof.
  intros w h. rewrite exec_run_subprocess. cbv zeta.
  intros pre ev post cmd' cwd' code' H Hev.
  unfold runner_run in *. destruct (embedded_null cmd_list cwd).
  { simpl in H. split_trace H; simpl in Hev; discriminate. }
  destruct (w _ _) as [|code out].
  - simpl in H. split_trace H; simpl in Hev; discriminate.
  - destruct passthrough, out as [out|]; cbn [readable negb orb] in H.
    all: try destruct (code =? 0)%Z.
    all: try destruct (PyStr.is_empty (or_empty (Some out))).
    all: simpl in H; split_trace H; simpl in Hev; try discriminate.
    all: simpl; now split.
Qed.


(** *** Walking through the programs *)

Ltac walk leaf :=
  repeat first
    [ progress intros
    | match goal with |- Sequential _ => typeclasses eauto end
    | apply always_ret
    | apply always_exit
    | apply always_raise
    | apply always_input
    | apply always_log
    | apply always_print
    | apply always_exists
    | apply always_resolve
    | apply always_mkdir
    | leaf
    | apply always_bind
    | apply always_vis;
      [ typeclasses eauto || reflexivity .. | ]
    | match goal with
      | |- always _ (if ?b then _ else _) => destruct b
      | |- always _ (match ?x with _ => _ end) => destruct x
      end ].

Section Walk.
Context (Q : run_prop) `{!Sequential Q}.

Lemma always_main root args :
  (forall cmd passthrough cwd,
      In cmd (sequencer_commands root args) ->
      always Q (run_subprocess cmd passthrough cwd)) ->
  always Q (main root args).
Proof.
  intros Hrun.
  unfold main, main_steps, git_prepare_branch, check_sfcli_exists, login_devhub,
    create_scratch_org, deploy_source_metadata, open_scratch_org.
  walk ltac:(apply Hrun; unfold sequencer_commands, create_command;
             try destruct (preview args); simpl; tauto).
Qed.

Section Pull.
Hypothesis Hrun :
  forall cmd cwd passthrough, always Q (pull_metadata.run cmd cwd passthrough).

Lemma always_print_options options : forall i, always Q (pull_metadata.print_options i options).
Proof. induction options as [|opt rest IH]; intros i; simpl; walk ltac:(apply IH). Qed.

Lemma always_pick_tokens options tokens :
  forall picks, always Q (pull_metadata.pick_tokens options tokens picks).
Proof. induction tokens as [|token rest IH]; intros picks; simpl; walk ltac:(apply IH). Qed.

Lemma always_choose_many prompt options :
  always Q (pull_metadata.choose_many prompt options).
Proof.
  unfold pull_metadata.choose_many.
  walk ltac:(first [apply always_print_options | apply always_pick_tokens]).
Qed.

Lemma always_menu_turn root org ic : always Q (pull_metadata.menu_turn root org ic).
Proof.
  unfold pull_metadata.menu_turn, pull_metadata.pull_everything,
    pull_metadata.pull_by_types, pull_metadata.pull_by_paths,
    pull_metadata.pull_by_manifest, pull_metadata.retrieve_manifest,
    pull_metadata.reset_tracking, pull_metadata.ask, pull_metadata.ask_bool.
  walk ltac:(first [apply Hrun | apply always_choose_many]).
Qed.

Lemma always_menu turns root org ic : always Q (pull_metadata.menu turns root org ic).
Proof.
  induction turns as [|turns IH]; cbn [pull_metadata.menu].
  - now apply always_ret.
  - apply always_bind; [exact _ | apply always_menu_turn |].
    intros [|]; [exact IH | now apply always_ret].
Qed.

End Pull.

End Walk.

(** C1, at the failing input: [sf --version] is run in capture mode; when
    it ends with return code 1 after writing bytes that are no text,
    [subprocess.run] raises [UnicodeDecodeError], which the handler of
    [run_subprocess] does not name. The run of [main] ends with that
    exception on its way up: the child is the last event, no error line is
    logged, nothing is printed and [sys.exit(1)] is not reached. In every
    run of [main] a captured child whose output is no text is the last
    event and the run ends with that exception, whatever the return
    code. *)
Theorem undecodable_failure_is_not_reported :
  last (exec sf_garbled_world [] (main "/repo" demo_args)).1
  = Some (Event (Spawn ["sf"; "--version"] None true) (Completed 1 None))
  /\ (exec sf_garbled_world [] (main "/repo" demo_args)).2 = Raised UnicodeDecodeError
  /\ errors (exec sf_garbled_world [] (main "/repo" demo_args)).1 = []
  /\ printed (exec sf_garbled_world [] (main "/repo" demo_args)).1 = []
  /\ forall (w : world) (h : list event) (root : string) (args : Args)
            pre cmd cwd code post,
       (exec w h (main root args)).1
       = pre ++ Event (Spawn cmd cwd true) (Completed code None) :: post ->
       (exec w h (main root args)).2 = Raised UnicodeDecodeError /\ post = [].
Proof.
  do 4 (split; [vm_compute; reflexivity|]).
  intros w h root args pre cmd cwd code post Ht.
  assert (H : always garbled_is_fatal (main root args)).
  { apply always_main; [exact _|]. intros. apply run_subprocess_garbled. }
  exact (H w h pre _ post cmd cwd code Ht eq_refl).
Qed.



(** *** Which name each stage gets *)

#[local] Instance spawns_only_sequential P : Sequential (spawns_only P).
Proof.
  unfold spawns_only. split; intros; try assumption.
  - constructor.
  - unfold spawned. rewrite omap_app. apply Forall_app. now split.
  - destruct e; try discriminate; constructor.
Qed.

Lemma run_subprocess_spawns (P : list string -> Prop) cmd_list passthrough cwd :
  P cmd_list -> always (spawns_only P) (run_subprocess cmd_list passthrough cwd).
Proof.
  intros HP w h. rewrite exec_run_subprocess. unfold spawns_only, runner_run.
  destruct (embedded_null cmd_list cwd); [simpl; now repeat constructor|].
  destruct (w _ _) as [|code out];
    [|destruct (negb (readable passthrough out));
      [|destruct (code =? 0)%Z;
        [|destruct (negb passthrough && negb (PyStr.is_empty (or_empty out)))]]];
    simpl; (constructor; [assumption | constructor]).
Qed.

Lemma main_commands root args :
  always (spawns_only (fun cmd => In cmd (sequencer_commands root args)))
    (main root args).
Proof.
  apply always_main; [exact _|]. intros cmd passthrough cwd Hcmd.
  now apply run_subprocess_spawns.
Qed.

(** C2, as stated, fails: in review mode the run of [main] is not the run
    of the sequencer that hands the suffixed alias to every stage. For
    "FE Hello" the branch stage works on "fe-hello" while the scratch org
    is created as "fe-hello-review". *)
Lemma branch_stage_gets_unsuffixed_name :
  exec ready_world [] (main "/repo" demo_args)
  <> exec ready_world [] (main_as_specified "/repo" demo_args)
  /\ scratch_alias demo_args = "fe-hello-review"
  /\ spawned (exec ready_world [] (main "/repo" demo_args)).1 !! 2
     = Some ["git"; "branch"; "--list"; "fe-hello"]
  /\ spawned (exec ready_world [] (main "/repo" demo_args)).1 !! 7
     = Some ["sf"; "org"; "create"; "scratch";
             "--definition-file"; "/repo/config/project-scratch-def.json";
             "--alias"; "fe-hello-review";
             "--duration-days"; "7"; "--set-default"].
Proof.
  split; [|repeat split; vm_compute; reflexivity].
  intros H. apply (f_equal (fun r => spawned r.1 !! 2)) in H.
  vm_compute in H. discriminate H.
Qed.

(** C2, amended: outside review mode [main] is the sequencer that hands
    one alias to every stage. In general the scratch alias (suffix
    included) is the name in the commands of scratch-org creation,
    deployment and launch; the branch commands carry the normalised name
    without the suffix; the CLI check and the authentication name neither;
    and no run issues a command outside this list, so neither string is
    changed on the way. *)
Theorem alias_use_by_stage :
  forall (root : string) (args : Args),
    main root
      {| environment := environment args;
         review := false;
         devhub_url := devhub_url args;
         force_devhub_connection := force_devhub_connection args;
         preview := preview args |}
    = main_as_specified root
        {| environment := environment args;
           review := false;
           devhub_url := devhub_url args;
           force_devhub_connection := force_devhub_connection args;
           preview := preview args |}
    /\ forall (w : world) (h : list event),
         Forall (fun cmd => In cmd (sequencer_commands root args))
           (spawned (exec w h (main root args)).1).
Proof.
  intros root args. split; [reflexivity|].
  intros w h. apply (main_commands root args w h).
Qed.

(** *** Following one program through every world *)

Section Holds.
Context {A B : Type}.
Implicit Types (Q : list event -> outcome B -> Prop).

Lemma holds_ret (a : B) Q : Q [] (Returned a) -> holds (Ret a) Q.
Proof. intros H w h. exact H. Qed.

Lemma holds_exit c Q : Q [] (Exited c) -> holds (Exit c) Q.
Proof. intros H w h. exact H. Qed.

Lemma holds_raise e Q : Q [] (Raised e) -> holds (Raise e) Q.
Proof. intros H w h. exact H. Qed.

Lemma holds_vis e (k : answer e -> prog B) Q :
  (forall a, holds (k a) (fun t o => Q (Event e a :: t) o)) ->
  holds (Vis e k) Q.
Proof. intros H w h. simpl. apply H. Qed.

Lemma holds_bind (p : prog A) (f : A -> prog B) (Q1 : list event -> outcome A -> Prop) Q :
  holds p Q1 ->
  (forall t1 o1, Q1 t1 o1 ->
     match o1 with
     | Returned a => holds (f a) (fun t o => Q (t1 ++ t) o)
     | Exited c => Q t1 (Exited c)
     | Raised e => Q t1 (Raised e)
     end) ->
  holds (bind p f) Q.
Proof.
  intros Hp Hf w h. rewrite exec_bind.
  specialize (Hf _ _ (Hp w h)).
  destruct (exec w h p).2; simpl; [apply Hf | exact Hf | exact Hf].
Qed.

Lemma holds_bind_input prompt (f : string -> prog B) Q :
  (forall line, holds (f line) (fun t o => Q (Event (Input prompt) (Some line) :: t) o)) ->
  Q [Event (Input prompt) None] (Raised EOFError) ->
  holds (bind (input prompt) f) Q.
Proof.
  intros Hline Heof w h. unfold input. simpl.
  destruct (w h (Input prompt)) as [line|]; simpl; [apply Hline | exact Heof].
Qed.

Lemma holds_weaken (p : prog B) Q Q' :
  holds p Q' -> (forall t o, Q' t o -> Q t o) -> holds p Q.
Proof. intros H HQ w h. apply HQ, H. Qed.

Lemma holds_any (p : prog B) Q : (forall t o, Q t o) -> holds p Q.
Proof. intros H w h. apply H. Qed.

End Holds.

Lemma exec_bind_assoc {A B C} (w : world) (p : prog A) (f : A -> prog B)
    (g : B -> prog C) :
  forall h, exec w h (bind (bind p f) g) = exec w h (bind p (fun a => bind (f a) g)).
Proof.
  induction p as [a|c|e|e k IH]; intros h; simpl; try reflexivity.
  now rewrite IH.
Qed.

Lemma holds_bind_assoc {A B C} (p : prog A) (f : A -> prog B) (g : B -> prog C) Q :
  holds (bind p (fun a => bind (f a) g)) Q -> holds (bind (bind p f) g) Q.
Proof. intros H w h. rewrite exec_bind_assoc. apply H. Qed.

(** A runner call in passthrough mode followed by [f]: the call is
    refused, or the child cannot be started, or ends well and [f] goes on,
    or fails and the run exits. *)
Lemma holds_runner_passthrough {B} (runner : prog (option string)) pretty cmd cwd
    (f : option string -> prog B) Q :
  (forall w h, exists r, exec w h runner = runner_run pretty cmd cwd true r) ->
  let announce := Event (Log INFO ("$ " +:+ pretty)) tt in
  let child := fun r => Event (Spawn cmd cwd false) r in
  (embedded_null cmd cwd = true ->
   Q [announce; Event (Refuse cmd cwd false) tt] (Raised ValueError)) ->
  Q [announce; child NotStarted] (Raised OSError) ->
  (forall out,
      holds (f None)
        (fun t o => Q (announce :: child (Completed 0 out)
                         :: Event (Log SUCCESS pretty) tt :: t) o)) ->
  (forall code out,
      code <> 0%Z ->
      Q [announce; child (Completed code out);
         Event (Log ERROR ("FAILED: " +:+ pretty)) tt]
        (Exited 1)) ->
  holds (bind runner f) Q.
Proof.
  intros Hrun announce child Hnul Hnot Hok Hfail w h. rewrite exec_bind.
  destruct (Hrun w h) as [r ->]. unfold runner_run.
  destruct (embedded_null cmd cwd); [now apply Hnul|].
  destruct r as [|code out]; simpl; [exact Hnot|].
  destruct (code =? 0)%Z eqn:E; simpl.
  - apply Z.eqb_eq in E. subst code. apply Hok.
  - apply Z.eqb_neq in E. apply (Hfail code out E).
Qed.

(** A runner call in capture mode followed by [f]: as in passthrough
    mode, or what the child wrote is no text. *)
Lemma holds_runner_capture {B} (runner : prog (option string)) pretty cmd cwd
    (f : option string -> prog B) Q :
  (forall w h, exists r, exec w h runner = runner_run pretty cmd cwd false r) ->
  let announce := Event (Log INFO ("$ " +:+ pretty)) tt in
  let child := fun r => Event (Spawn cmd cwd true) r in
  (embedded_null cmd cwd = true ->
   Q [announce; Event (Refuse cmd cwd true) tt] (Raised ValueError)) ->
  Q [announce; child NotStarted] (Raised OSError) ->
  (forall code, Q [announce; child (Completed code None)] (Raised UnicodeDecodeError)) ->
  (forall out,
      holds (f (Some out))
        (fun t o => Q (announce :: child (Completed 0 (Some out))
                         :: Event (Log SUCCESS pretty) tt :: t) o)) ->
  (forall code out,
      code <> 0%Z ->
      Q (announce :: child (Completed code (Some out))
           :: failure_report ("FAILED: " +:+ pretty) true out)
        (Exited 1)) ->
  holds (bind runner f) Q.
Proof.
  intros Hrun announce child Hnul Hnot Hbad Hok Hfail w h. rewrite exec_bind.
  destruct (Hrun w h) as [r ->]. unfold runner_run.
  destruct (embedded_null cmd cwd); [now apply Hnul|].
  destruct r as [|code [out|]]; simpl; [exact Hnot| |apply Hbad].
  destruct (code =? 0)%Z eqn:E; simpl.
  - apply Z.eqb_eq in E. subst code. apply Hok.
  - apply Z.eqb_neq in E. apply (Hfail code out E).
Qed.

Lemma holds_run_subprocess_passthrough {B} cmd_list cwd (f : option string -> prog B) Q :
  let cmd_str := PyStr.join " " cmd_list in
  let announce := Event (Log INFO ("$ " +:+ cmd_str)) tt in
  let child := fun r => Event (Spawn cmd_list cwd false) r in
  (embedded_null cmd_list cwd = true ->
   Q [announce; Event (Refuse cmd_list cwd false) tt] (Raised ValueError)) ->
  Q [announce; child NotStarted] (Raised OSError) ->
  (forall out,
      holds (f None)
        (fun t o => Q (announce :: child (Completed 0 out)
                         :: Event (Log SUCCESS cmd_str) tt :: t) o)) ->
  (forall code out,
      code <> 0%Z ->
      Q [announce; child (Completed code out);
         Event (Log ERROR ("FAILED: " +:+ cmd_str)) tt]
        (Exited 1)) ->
  holds (bind (run_subprocess cmd_list true cwd) f) Q.
Proof.
  intros cmd_str. apply holds_runner_passthrough.
  intros w h. eexists. apply exec_run_subprocess.
Qed.

Lemma holds_run_subprocess_capture {B} cmd_list cwd (f : option string -> prog B) Q :
  let cmd_str := PyStr.join " " cmd_list in
  let announce := Event (Log INFO ("$ " +:+ cmd_str)) tt in
  let child := fun r => Event (Spawn cmd_list cwd true) r in
  (embedded_null cmd_list cwd = true ->
   Q [announce; Event (Refuse cmd_list cwd true) tt] (Raised ValueError)) ->
  Q [announce; child NotStarted] (Raised OSError) ->
  (forall code, Q [announce; child (Completed code None)] (Raised UnicodeDecodeError)) ->
  (forall out,
      holds (f (Some out))
        (fun t o => Q (announce :: child (Completed 0 (Some out))
                         :: Event (Log SUCCESS cmd_str) tt :: t) o)) ->
  (forall code out,
      code <> 0%Z ->
      Q (announce :: child (Completed code (Some out))
           :: failure_report ("FAILED: " +:+ cmd_str) true out)
        (Exited 1)) ->
  holds (bind (run_subprocess cmd_list false cwd) f) Q.
Proof.
  intros cmd_str. apply holds_runner_capture.
  intros w h. eexists. apply exec_run_subprocess.
Qed.

Lemma holds_run_passthrough {B} cmd cwd (f : option string -> prog B) Q :
  let pretty := PyStr.join " " (map PyStr.shlex_quote cmd) in
  let announce := Event (Log INFO ("$ " +:+ pretty)) tt in
  let child := fun r => Event (Spawn cmd cwd false) r in
  (embedded_null cmd cwd = true ->
   Q [announce; Event (Refuse cmd cwd false) tt] (Raised ValueError)) ->
  Q [announce; child NotStarted] (Raised OSError) ->
  (forall out,
      holds (f None)
        (fun t o => Q (announce :: child (Completed 0 out)
                         :: Event (Log SUCCESS pretty) tt :: t) o)) ->
  (forall code out,
      code <> 0%Z ->
      Q [announce; child (Completed code out);
         Event (Log ERROR ("FAILED: " +:+ pretty)) tt]
        (Exited 1)) ->
  holds (bind (pull_metadata.run cmd cwd true) f) Q.
Proof.
  intros pretty. apply holds_runner_passthrough.
  intros w h. eexists. apply exec_run.
Qed.

Ltac unfold_logger :=
  unfold logger.header, logger.info, logger.step, logger.status,
    logger.success, logger.warning, logger.error, print.

(** The case of a refused call: it is gone when the command and the
    directory are written out and hold no NUL. *)
Ltac refused_call :=
  let Hnul := fresh "Hnul" in
  intros Hnul; try (exfalso; vm_compute in Hnul; discriminate Hnul).

(** One step of a run: the program in the goal is taken apart at its
    head, the event it adds goes to the front of the trace in the
    property. *)
Ltac step :=
  cbv beta;
  lazymatch goal with
  | |- holds (bind (bind _ _) _) _ => apply holds_bind_assoc
  | |- holds (bind (Ret _) _) _ => cbn [bind]
  | |- holds (bind (Exit _) _) _ => cbn [bind]
  | |- holds (bind (Raise _) _) _ => cbn [bind]
  | |- holds (bind (trigger _) _) _ =>
      unfold trigger at 1; cbn [bind]; apply holds_vis;
      let a := fresh "a" in intros a; cbn [answer] in a;
      lazymatch type of a with unit => destruct a | _ => idtac end
  | |- holds (bind (input _) _) _ =>
      apply holds_bind_input; [let line := fresh "line" in intros line |]
  | |- holds (bind (run_subprocess _ true _) _) _ =>
      apply holds_run_subprocess_passthrough;
      [ refused_call
      |
      | let out := fresh "out" in intros out
      | let code := fresh "code" in let out := fresh "out" in
        let Hcode := fresh "Hcode" in intros code out Hcode ]
  | |- holds (bind (run_subprocess _ false _) _) _ =>
      apply holds_run_subprocess_capture;
      [ refused_call
      |
      | let code := fresh "code" in intros code
      | let out := fresh "out" in intros out
      | let code := fresh "code" in let out := fresh "out" in
        let Hcode := fresh "Hcode" in intros code out Hcode ]
  | |- holds (bind (pull_metadata.run _ _ true) _) _ =>
      apply holds_run_passthrough;
      [ refused_call
      |
      | let out := fresh "out" in intros out
      | let code := fresh "code" in let out := fresh "out" in
        let Hcode := fresh "Hcode" in intros code out Hcode ]
  | |- holds (bind (if ?c then _ else _) _) _ => destruct c eqn:?
  | |- holds (if ?c then _ else _) _ => destruct c eqn:?
  | |- holds (Ret _) _ => apply holds_ret
  | |- holds (Exit _) _ => apply holds_exit
  | |- holds (Raise _) _ => apply holds_raise
  | |- holds (trigger _) _ =>
      unfold trigger at 1; apply holds_vis;
      let a := fresh "a" in intros a; cbn [answer] in a;
      lazymatch type of a with unit => destruct a | _ => idtac end;
      apply holds_ret
  | |- holds (Vis _ _) _ =>
      apply holds_vis; let a := fresh "a" in intros a; cbn [answer] in a;
      lazymatch type of a with unit => destruct a | _ => idtac end
  end.

Ltac steps := unfold_logger; repeat step.

(** *** The Dev Hub check *)

Ltac split_report :=
  unfold failure_report; cbn [negb andb];
  repeat match goal with
    | |- context [if negb (PyStr.is_empty ?o) then _ else _] =>
        destruct (PyStr.is_empty o); cbn [negb]
    end.

Lemma login_devhub_holds url force : holds (login_devhub url force) login_post.
Proof.
  unfold login_devhub. steps.
  all: unfold login_post; split_report; simpl spawned; simpl outputs_of.
  all: (split; [repeat constructor|]); simpl; try lia; try reflexivity.
  all: eexists _, _; (split; [reflexivity|]).
  all: match goal with
       | H : negb (PyStr.contains _ _) = false |- _ =>
           now apply negb_false_iff in H
       end.
Qed.

Lemma no_listing_no_output t :
  Forall not_listing (spawned t) -> outputs_of ["sf"; "org"; "list"] t = [].
Proof.
  induction t as [|[e a] t IH]; [reflexivity|].
  destruct e; try exact IH.
  - intros H. change (Forall not_listing (cmd :: spawned t)) in H.
    apply Forall_cons in H as [Hc Ht]. unfold not_listing in Hc.
    destruct a as [|code out]; [apply IH, Ht|].
    unfold outputs_of. cbn -[starts_with]. rewrite Hc. apply IH, Ht.
  - intros H. change (Forall not_listing (cmd :: spawned t)) in H.
    apply Forall_cons in H as [_ Ht]. apply IH, Ht.
Qed.

Lemma spawned_app t1 t2 : spawned (t1 ++ t2) = spawned t1 ++ spawned t2.
Proof. apply omap_app. Qed.

Lemma outputs_of_app cmd t1 t2 :
  outputs_of cmd (t1 ++ t2) = outputs_of cmd t1 ++ outputs_of cmd t2.
Proof. apply omap_app. Qed.

Lemma quiet_then {A} (p : prog A) (f : A -> prog unit) :
  always (spawns_only quiet_cmd) p ->
  (forall a, holds (f a) aborts_after_failed_check) ->
  holds (bind p f) aborts_after_failed_check.
Proof.
  intros Hp Hf. apply (holds_bind p f (spawns_only quiet_cmd A)); [exact Hp|].
  unfold spawns_only. intros t1 o1 H1.
  assert (Hl : outputs_of ["sf"; "org"; "list"] t1 = []).
  { apply no_listing_no_output. eapply Forall_impl; [exact H1|]. now intros c []. }
  assert (Hc : Forall not_create (spawned t1)).
  { eapply Forall_impl; [exact H1|]. now intros c []. }
  destruct o1 as [a|c|e].
  - eapply holds_weaken; [apply Hf|].
    intros t o Hto o1 o2 Ho Hlack.
    rewrite outputs_of_app, Hl in Ho.
    destruct (Hto o1 o2 Ho Hlack) as [-> Hn].
    split; [reflexivity|]. rewrite spawned_app. apply Forall_app. now split.
  - intros o1 o2 Ho. rewrite Hl in Ho. discriminate.
  - intros o1 o2 Ho. rewrite Hl in Ho. discriminate.
Qed.

Lemma login_then (f : unit -> prog unit) url force :
  (forall a, always (spawns_only not_listing) (f a)) ->
  holds (bind (login_devhub url force) f) aborts_after_failed_check.
Proof.
  intros Hf. apply (holds_bind _ f login_post); [apply login_devhub_holds|].
  intros t1 o1 [Hc H1]. destruct o1 as [a|c|e].
  - destruct H1 as (p1 & p2 & Hl & Hhub).
    intros w h. specialize (Hf a w h). unfold spawns_only in Hf.
    intros o1 o2 Ho Hlack. exfalso.
    rewrite outputs_of_app, Hl, no_listing_no_output in Ho.
    + injection Ho as _ <-. congruence.
    + exact Hf.
  - subst c. intros o1 o2 _ _. now split.
  - intros o1 o2 Ho. rewrite Ho in H1. simpl in H1. lia.
Qed.

Lemma main_aborts_after_failed_check root args :
  holds (main root args) aborts_after_failed_check.
Proof.
  unfold main, main_steps.
  do 6 (apply quiet_then;
        [unfold git_prepare_branch, check_sfcli_exists;
         walk ltac:(apply run_subprocess_spawns; split; reflexivity)
        | intros _]).
  apply login_then. intros _.
  unfold create_scratch_org, deploy_source_metadata, open_scratch_org.
  walk ltac:(apply run_subprocess_spawns; try destruct (preview args);
             reflexivity).
Qed.

(** C5: in every run of [main] in which the orgs were listed a second
    time (the re-listing after the login attempt) and that list does not
    contain "DevHub", the run exits with code 1 and no
    [sf org create scratch] command is among the commands it issued. *)
Theorem no_scratch_org_without_devhub :
  forall (w : world) (h : list event) (root : string) (args : Args)
         (first_list second_list : string),
    outputs_of ["sf"; "org"; "list"] (exec w h (main root args)).1
    = [first_list; second_list] ->
    PyStr.contains "DevHub" second_list = false ->
    (exec w h (main root args)).2 = Exited 1
    /\ Forall (fun cmd => starts_with ["sf"; "org"; "create"; "scratch"] cmd = false)
         (spawned (exec w h (main root args)).1).
Proof.
  intros w h root args o1 o2 Ho Hlack.
  exact (main_aborts_after_failed_check root args w h o1 o2 Ho Hlack).
Qed.

Lemma no_scratch_org_without_devhub_witness :
  outputs_of ["sf"; "org"; "list"]
    (exec no_devhub_world [] (main "/repo" demo_args)).1
  = [EmptyString; EmptyString]
  /\ (exec no_devhub_world [] (main "/repo" demo_args)).2 = Exited 1
  /\ Forall (fun cmd => starts_with ["sf"; "org"; "create"; "scratch"] cmd = false)
       (spawned (exec no_devhub_world [] (main "/repo" demo_args)).1).
Proof.
  assert (Ho : outputs_of ["sf"; "org"; "list"]
                 (exec no_devhub_world [] (main "/repo" demo_args)).1
               = [EmptyString; EmptyString]) by (vm_compute; reflexivity).
  split; [exact Ho|].
  apply (no_scratch_org_without_devhub no_devhub_world [] "/repo" demo_args _ _ Ho).
  reflexivity.
Defined.

(** ** The multi-select prompt *)

Lemma print_options_holds options :
  forall i, holds (print_options i options)
              (fun t o => t = option_lines i options /\ o = Returned tt).
Proof.
  induction options as [|opt rest IH]; intros i; cbn [print_options option_lines].
  - now apply holds_ret.
  - steps. eapply holds_weaken; [apply IH|].
    intros t o [-> ->]. now split.
Qed.

Lemma in_range_lookup (options : list string) (idx : N) :
  ((1 <=? idx) && (idx <=? N.of_nat (length options)))%N = true ->
  is_Some (options !! N.to_nat (idx - 1)).
Proof.
  intros H. apply andb_true_iff in H as [H1 H2].
  apply N.leb_le in H1, H2. apply lookup_lt_is_Some. lia.
Qed.

Lemma picked_skip options token rest picks t o (ws : list string) :
  token_raises token = false ->
  token_pick options token = None ->
  picked options rest picks t o ->
  ws = match token_warning options token with Some m => [m] | None => [] end ->
  picked options (token :: rest) picks (map warning_event ws ++ t) o.
Proof.
  intros Hr Hp H ->. destruct o as [result|c|e]; simpl in *.
  - destruct H as (Hn & -> & ->). rewrite Hr, Hp. repeat split; try assumption.
    now destruct (token_warning options token).
  - exact H.
  - destruct H as (-> & before & tok & after & -> & Htok & ->).
    split; [reflexivity|]. exists (token :: before), tok, after.
    repeat split; try assumption. simpl.
    now destruct (token_warning options token).
Qed.

Lemma pick_tokens_holds options tokens :
  forall picks, holds (pick_tokens options tokens picks) (picked options tokens picks).
Proof.
  induction tokens as [|token rest IH]; intros picks.
  - apply holds_ret. simpl. now rewrite app_nil_r.
  - cbn [pick_tokens].
    destruct (PyStr.is_empty (PyStr.strip token)) eqn:Hempty.
    { eapply holds_weaken; [apply IH|]. intros t o H.
      apply (picked_skip options token rest picks t o []); try assumption.
      - unfold token_raises. now rewrite Hempty.
      - unfold token_pick, token_index. now rewrite Hempty.
      - unfold token_warning. now rewrite Hempty. }
    destruct (PyStr.isdigit (PyStr.strip token)) eqn:Hdigit; cbn [negb].
    2:{ steps. eapply holds_weaken; [apply IH|]. intros t o H.
        apply (picked_skip options token rest picks t o
                 ["Ignoring '" +:+ PyStr.strip token +:+ "' (not a number)."]);
          try assumption.
        - unfold token_raises. now rewrite Hempty, Hdigit.
        - unfold token_pick, token_index. now rewrite Hempty, Hdigit.
        - unfold token_warning. now rewrite Hempty, Hdigit. }
    destruct (PyStr.int (PyStr.strip token)) as [idx|] eqn:Hint.
    2:{ apply holds_raise. split; [reflexivity|].
        exists [], token, rest. repeat split.
        unfold token_raises. now rewrite Hempty, Hdigit, Hint. }
    destruct ((1 <=? idx) && (idx <=? N.of_nat (length options)))%N eqn:Hrange.
    + destruct (in_range_lookup options idx Hrange) as [opt Hopt]. rewrite Hopt.
      eapply holds_weaken; [apply IH|]. intros t o H.
      assert (Hpick : token_pick options token = Some opt).
      { unfold token_pick, token_index. now rewrite Hempty, Hdigit, Hint, Hrange. }
      assert (Hwarn : token_warning options token = None).
      { unfold token_warning. now rewrite Hempty, Hdigit, Hint, Hrange. }
      assert (Hraise : token_raises token = false).
      { unfold token_raises. now rewrite Hempty, Hdigit, Hint. }
      destruct o as [result|c|e]; simpl in *.
      * destruct H as (Hn & -> & ->). rewrite Hraise, Hpick, Hwarn.
        repeat split; try assumption. now rewrite <- app_assoc.
      * exact H.
      * destruct H as (-> & before & tok & after & -> & Htok & ->).
        split; [reflexivity|]. exists (token :: before), tok, after.
        repeat split; try assumption. simpl. now rewrite Hwarn.
    + steps. eapply holds_weaken; [apply IH|]. intros t o H.
      apply (picked_skip options token rest picks t o
               ["Ignoring '" +:+ PyStr.strip token +:+ "' (out of range)."]);
        try assumption.
      * unfold token_raises. now rewrite Hempty, Hdigit, Hint.
      * unfold token_pick, token_index. now rewrite Hempty, Hdigit, Hint, Hrange.
      * unfold token_warning. now rewrite Hempty, Hdigit, Hint, Hrange.
Qed.

Lemma choose_many_holds prompt options :
  holds (choose_many prompt options) (chosen prompt options).
Proof.
  unfold choose_many. unfold_logger. do 2 step.
  apply (holds_bind _ _ _ _ (print_options_holds options 1)).
  intros t1 o1 [-> ->]. steps.
  - exists (Some line), []. split.
    + unfold choose_header. simpl. now rewrite <- app_assoc.
    + destruct (PyStr.strip line); [|discriminate]. now repeat split.
  - eapply holds_weaken; [apply pick_tokens_holds|].
    intros t o H. exists (Some line), t. split; [|exact H].
    unfold choose_header. simpl. now rewrite <- app_assoc.
  - exists None, []. split; [|now split].
    unfold choose_header. simpl. now rewrite <- app_assoc.
Qed.

(** *** What the projections see of the pieces of a trace *)

Lemma inputs_app t1 t2 : inputs (t1 ++ t2) = inputs t1 ++ inputs t2.
Proof. apply omap_app. Qed.

Lemma warnings_app t1 t2 : warnings (t1 ++ t2) = warnings t1 ++ warnings t2.
Proof. apply omap_app. Qed.

Lemma option_lines_silent i options :
  inputs (option_lines i options) = []
  /\ warnings (option_lines i options) = []
  /\ spawned (option_lines i options) = [].
Proof.
  revert i. induction options as [|opt rest IH]; intros i; [now repeat split|].
  destruct (IH (S i)) as (H1 & H2 & H3). now repeat split.
Qed.

Lemma choose_header_silent prompt options :
  inputs (choose_header prompt options) = []
  /\ warnings (choose_header prompt options) = []
  /\ spawned (choose_header prompt options) = [].
Proof.
  destruct (option_lines_silent 1 options) as (H1 & H2 & H3).
  unfold choose_header.
  change (inputs (option_lines 1 options ++ [Event (Print EmptyString) ()]) = []
          /\ warnings (option_lines 1 options ++ [Event (Print EmptyString) ()]) = []
          /\ spawned (option_lines 1 options ++ [Event (Print EmptyString) ()]) = []).
  rewrite inputs_app, warnings_app, spawned_app, H1, H2, H3. now repeat split.
Qed.

Lemma warning_events msgs :
  inputs (map warning_event msgs) = []
  /\ warnings (map warning_event msgs) = msgs
  /\ spawned (map warning_event msgs) = [].
Proof.
  induction msgs as [|m msgs (H1 & H2 & H3)]; [now repeat split|].
  repeat split; try assumption.
  change (m :: warnings (map warning_event msgs) = m :: msgs). now rewrite H2.
Qed.

(** What a run of [choose_many] that read [line] shows. *)
Lemma chosen_inv prompt options t o :
  chosen prompt options t o ->
  exists a, inputs t = [a]
    /\ spawned t = []
    /\ match a with
       | None => warnings t = [] /\ o = Raised EOFError
       | Some line =>
           let tokens := PyStr.split ","%char (PyStr.strip line) in
           match o with
           | Returned result =>
               existsb token_raises tokens = false
               /\ result = omap (token_pick options) tokens
               /\ warnings t = omap (token_warning options) tokens
           | Raised e => e = ValueError /\ existsb token_raises tokens = true
           | Exited _ => False
           end
       end.
Proof.
  intros (a & t' & -> & H). exists a.
  destruct (choose_header_silent prompt options) as (H1 & H2 & H3).
  rewrite inputs_app, spawned_app, warnings_app, H1, H2, H3. cbn [app].
  change (inputs (Event (Input choose_prompt) a :: t')) with (a :: inputs t').
  change (spawned (Event (Input choose_prompt) a :: t')) with (spawned t').
  change (warnings (Event (Input choose_prompt) a :: t')) with (warnings t').
  destruct a as [line|].
  - destruct o as [result|c|e]; simpl in H.
    + destruct H as (Hn & -> & ->).
      destruct (warning_events
                  (omap (token_warning options) (PyStr.split "," (PyStr.strip line))))
        as (-> & -> & ->).
      now repeat split.
    + destruct H.
    + destruct H as (-> & before & tok & after & Htok & Hr & ->).
      destruct (warning_events (omap (token_warning options) before)) as (-> & _ & ->).
      repeat split. cbv zeta. rewrite Htok, existsb_app. simpl. rewrite Hr.
      now rewrite orb_true_r.
  - destruct H as [-> ->]. now repeat split.
Qed.

Lemma length_omap_le {X Y} (f : X -> option Y) (l : list X) :
  length (omap f l) <= length l.
Proof.
  induction l as [|x l IH]; [simpl; lia|].
  change (omap f (x :: l))
    with (match f x with Some y => y :: omap f l | None => omap f l end).
  destruct (f x); simpl; lia.
Qed.

Lemma token_pick_elem options token x :
  token_pick options token = Some x -> x ∈ options.
Proof.
  unfold token_pick. destruct (token_index options token); [|discriminate].
  apply list_elem_of_lookup_2.
Qed.

(** C4: with the options A, B, C and the line "1,3,9,x", [choose_many]
    returns exactly A and C, having warned once that 9 is out of range and
    once that x is no number, and raises nothing; and for every list of
    options a blank line returns the empty selection. *)
Theorem choose_many_example :
  (forall (w : world) (h : list event) (prompt : string),
      inputs (exec w h (choose_many prompt ["A"; "B"; "C"])).1 = [Some "1,3,9,x"] ->
      (exec w h (choose_many prompt ["A"; "B"; "C"])).2 = Returned ["A"; "C"]
      /\ warnings (exec w h (choose_many prompt ["A"; "B"; "C"])).1
         = ["Ignoring '9' (out of range)."; "Ignoring 'x' (not a number)."])
  /\ (forall (w : world) (h : list event) (prompt : string)
             (options : list string) (line : string),
      inputs (exec w h (choose_many prompt options)).1 = [Some line] ->
      PyStr.strip line = EmptyString ->
      (exec w h (choose_many prompt options)).2 = Returned []
      /\ warnings (exec w h (choose_many prompt options)).1 = []).
Proof.
  split.
  - intros w h prompt Hin.
    destruct (chosen_inv _ _ _ _ (choose_many_holds prompt ["A"; "B"; "C"] w h))
      as (a & Ha & _ & H).
    rewrite Hin in Ha. injection Ha as <-.
    destruct (exec w h (choose_many prompt ["A"; "B"; "C"])) as [t o]. simpl in *.
    destruct o as [result|c|e].
    + destruct H as (_ & -> & ->). split; reflexivity.
    + destruct H.
    + destruct H as [_ H]. vm_compute in H. discriminate H.
  - intros w h prompt options line Hin Hblank.
    destruct (chosen_inv _ _ _ _ (choose_many_holds prompt options w h))
      as (a & Ha & _ & H).
    rewrite Hin in Ha. injection Ha as <-. rewrite Hblank in H.
    destruct (exec w h (choose_many prompt options)) as [t o]. simpl in *.
    destruct o as [result|c|e].
    + destruct H as (_ & -> & ->). split; reflexivity.
    + destruct H.
    + destruct H as [_ H]. vm_compute in H. discriminate H.
Qed.

Lemma choose_many_example_witness :
  inputs (exec picks_world [] (choose_many "Pick" ["A"; "B"; "C"])).1
  = [Some "1,3,9,x"]
  /\ (exec picks_world [] (choose_many "Pick" ["A"; "B"; "C"])).2
     = Returned ["A"; "C"]
  /\ warnings (exec picks_world [] (choose_many "Pick" ["A"; "B"; "C"])).1
     = ["Ignoring '9' (out of range)."; "Ignoring 'x' (not a number)."].
Proof.
  assert (Hin : inputs (exec picks_world [] (choose_many "Pick" ["A"; "B"; "C"])).1
                = [Some "1,3,9,x"]) by (vm_compute; reflexivity).
  split; [exact Hin|].
  exact (proj1 choose_many_example picks_world [] "Pick" Hin).
Defined.

(** C10: whenever [choose_many] returns a list, that list is made of the
    options at the accepted indices, token by token in the order typed
    (so an index typed twice gives its option twice); every element is one
    of the options; and the list is no longer than the number of
    comma-separated tokens. With the options A, B, C the line "3,1,3"
    gives C, A, C. *)
Theorem choose_many_picks_from_options :
  forall (w : world) (h : list event) (prompt : string)
         (options : list string) (line : string) (result : list string),
    inputs (exec w h (choose_many prompt options)).1 = [Some line] ->
    (exec w h (choose_many prompt options)).2 = Returned result ->
    let tokens := PyStr.split ","%char (PyStr.strip line) in
    result = omap (token_pick options) tokens
    /\ Forall (fun x => x ∈ options) result
    /\ length result <= length (PyStr.split ","%char line)
    /\ omap (token_pick ["A"; "B"; "C"]) (PyStr.split ","%char (PyStr.strip "3,1,3"))
       = ["C"; "A"; "C"].
Proof.
  intros w h prompt options line result Hin Hout tokens.
  destruct (chosen_inv _ _ _ _ (choose_many_holds prompt options w h))
    as (a & Ha & _ & H).
  rewrite Hin in Ha. injection Ha as <-. rewrite Hout in H.
  destruct H as (_ & -> & _). fold tokens.
  repeat split.
  - apply Forall_forall. intros x Hx.
    apply list_elem_of_omap in Hx as (token & _ & Hpick).
    now apply token_pick_elem in Hpick.
  - rewrite <- (split_strip_length ","%char line eq_refl). apply length_omap_le.
Qed.

Lemma choose_many_picks_from_options_witness :
  (exec repeat_world [] (choose_many "Pick" ["A"; "B"; "C"])).2
  = Returned ["C"; "A"; "C"]
  /\ Forall (fun x => x ∈ ["A"; "B"; "C"]) ["C"; "A"; "C"]
  /\ length ["C"; "A"; "C"] <= length (PyStr.split ","%char "3,1,3").
Proof.
  assert (Hin : inputs (exec repeat_world [] (choose_many "Pick" ["A"; "B"; "C"])).1
                = [Some "3,1,3"]) by (vm_compute; reflexivity).
  assert (Hout : (exec repeat_world [] (choose_many "Pick" ["A"; "B"; "C"])).2
                 = Returned ["C"; "A"; "C"]) by (vm_compute; reflexivity).
  split; [exact Hout|].
  destruct (choose_many_picks_from_options repeat_world [] "Pick"
              ["A"; "B"; "C"] "3,1,3" ["C"; "A"; "C"] Hin Hout)
    as (_ & Hall & Hlen & _).
  split; [exact Hall | exact Hlen].
Defined.

(** ** The pull handlers *)

Ltac close_leaf :=
  intros; split_report; simpl in *;
  repeat match goal with
    | H : _ :: _ = _ :: _ |- _ => injection H as H; try subst
    | H : [] = _ :: _ |- _ => discriminate H
    | H : _ :: _ = [] |- _ => discriminate H
    | H : Some _ = Some _ |- _ => injection H as H; try subst
    | H : Some _ = None |- _ => discriminate H
    | H : None = Some _ |- _ => discriminate H
    end;
  try congruence.

(** C6: in the manifest flow, when the operator answers "1" and then
    gives a path, and the file that path resolves to does not exist, the
    run exits with code 1 and has spawned no command at all, so no
    retrieval. *)
Theorem missing_manifest_is_fatal :
  forall (w : world) (h : list event) (root org : string) (ic : bool)
         (line mp default path : string) (default_found : bool),
    inputs (exec w h (pull_by_manifest root org ic)).1 = [Some line; Some mp] ->
    PyStr.strip line = "1" ->
    resolved (exec w h (pull_by_manifest root org ic)).1 = [path] ->
    lookups (exec w h (pull_by_manifest root org ic)).1
    = [(default, default_found); (path, false)] ->
    (exec w h (pull_by_manifest root org ic)).2 = Exited 1
    /\ spawned (exec w h (pull_by_manifest root org ic)).1 = [].
Proof.
  intros w h root org ic line mp default path default_found.
  revert w h.
  change (holds (pull_by_manifest root org ic)
            (fun t o =>
               inputs t = [Some line; Some mp] ->
               PyStr.strip line = "1" ->
               resolved t = [path] ->
               lookups t = [(default, default_found); (path, false)] ->
               o = Exited 1 /\ spawned t = [])).
  unfold pull_by_manifest, retrieve_manifest, ask. steps.
  all: close_leaf.
  all: now split.
Qed.

Lemma missing_manifest_is_fatal_witness :
  inputs (exec no_manifest_world [] (pull_by_manifest "/repo" "org" false)).1
  = [Some "1"; Some "nope.xml"]
  /\ (exec no_manifest_world [] (pull_by_manifest "/repo" "org" false)).2 = Exited 1
  /\ spawned (exec no_manifest_world [] (pull_by_manifest "/repo" "org" false)).1 = [].
Proof.
  assert (Hin : inputs (exec no_manifest_world [] (pull_by_manifest "/repo" "org" false)).1
                = [Some "1"; Some "nope.xml"]) by (vm_compute; reflexivity).
  split; [exact Hin|].
  apply (missing_manifest_is_fatal no_manifest_world [] "/repo" "org" false
           "1" "nope.xml" "/repo/manifest/package.xml" "/repo/nope.xml" false Hin);
    vm_compute; reflexivity.
Defined.

Lemma fold_left_flags (flag : string) (g : string -> string) items cmd :
  fold_left (fun cmd x => cmd ++ [flag; g x]) items cmd
  = cmd ++ flat_map (fun item => [flag; item]) (map g items).
Proof.
  revert cmd. induction items as [|x items IH]; intros cmd; simpl.
  - now rewrite app_nil_r.
  - rewrite IH. now rewrite <- app_assoc.
Qed.

Lemma built_command target_org flag (g : string -> string) items (ic : bool) :
  (if ic
   then fold_left (fun cmd x => cmd ++ [flag; g x]) items
          ["sf"; "project"; "retrieve"; "start"; "--target-org"; target_org]
        ++ ["--ignore-conflicts"]
   else fold_left (fun cmd x => cmd ++ [flag; g x]) items
          ["sf"; "project"; "retrieve"; "start"; "--target-org"; target_org])
  = retrieve_command target_org flag (map g items) ic.
Proof.
  unfold retrieve_command. rewrite fold_left_flags.
  destruct ic; [now rewrite <- app_assoc | now rewrite app_nil_r].
Qed.

Lemma selected_types_eq (picks : list string) (line : string) :
  (if negb (PyStr.is_empty
              (PyStr.strip (if PyStr.is_empty (PyStr.strip line)
                            then or_empty None else PyStr.strip line)))
   then picks ++ stripped_items
                   (PyStr.strip (if PyStr.is_empty (PyStr.strip line)
                                 then or_empty None else PyStr.strip line))
   else picks)
  = picks ++ extra_types line.
Proof.
  unfold extra_types.
  destruct (PyStr.is_empty (PyStr.strip line)) eqn:E.
  - destruct (PyStr.strip line); [|discriminate]. simpl. now rewrite app_nil_r.
  - destruct (negb (PyStr.is_empty (PyStr.strip (PyStr.strip line))));
      [reflexivity | now rewrite app_nil_r].
Qed.

Lemma pull_by_types_holds root org ic :
  holds (pull_by_types root org ic) (types_pulled org ic).
Proof.
  unfold pull_by_types, ask.
  apply (holds_bind _ _ _ _ (choose_many_holds _ CURATED_TYPES)).
  intros t1 o1 H1. apply chosen_inv in H1 as (a & Hin & Hsp & H1).
  destruct o1 as [picks|c|e].
  2:{ destruct a; destruct H1; discriminate. }
  2:{ split; [now left|]. intros l1 l2 Hl. rewrite Hin in Hl. discriminate. }
  destruct a as [line1|]; [|destruct H1; discriminate].
  destruct H1 as (_ & -> & Hw). steps.
  all: split_report; split;
    [ first [ left; rewrite spawned_app, Hsp; reflexivity
            | right; eexists _, _; rewrite inputs_app, Hin; reflexivity ]
    | intros l1 l2 Hl; rewrite inputs_app, Hin in Hl; simpl in Hl;
      try discriminate Hl; injection Hl as <- <- ].
  all: match goal with
       | H : (if negb _ then _ else _) = _ |- _ =>
           rewrite selected_types_eq in H; unfold selected_types; rewrite H
       end.
  all: rewrite ?built_command, spawned_app, warnings_app, Hsp, Hw;
    cbn -[retrieve_command]; rewrite ?app_nil_r; repeat split; reflexivity.
Qed.

(** C7, as stated, fails: with the catalog answer "99" and no extra types
    the combined selection is empty and nothing is spawned, but two
    warnings are logged, one for the token and one for the empty
    selection. *)
Lemma empty_selection_two_warnings :
  inputs (exec out_of_range_world [] (pull_by_types "/repo" "org" false)).1
  = [Some "99"; Some EmptyString]
  /\ selected_types "99" EmptyString = []
  /\ spawned (exec out_of_range_world [] (pull_by_types "/repo" "org" false)).1 = []
  /\ (exec out_of_range_world [] (pull_by_types "/repo" "org" false)).2 = Returned tt
  /\ warnings (exec out_of_range_world [] (pull_by_types "/repo" "org" false)).1
     = ["Ignoring '99' (out of range)."; "No types selected. Nothing to do."].
Proof. repeat split; vm_compute; reflexivity. Qed.

(** C7, amended: when the combined selection of [pull_by_types] is empty,
    no command is spawned, the handler returns to the menu, and the
    warnings are one for every catalog token that was skipped followed by
    the one warning that nothing was selected; that last warning is the
    only one when the catalog answer was blank. *)
Theorem empty_selection_is_a_no_op :
  forall (w : world) (h : list event) (root org : string) (ic : bool)
         (line1 line2 : string),
    inputs (exec w h (pull_by_types root org ic)).1 = [Some line1; Some line2] ->
    selected_types line1 line2 = [] ->
    spawned (exec w h (pull_by_types root org ic)).1 = []
    /\ (exec w h (pull_by_types root org ic)).2 = Returned tt
    /\ warnings (exec w h (pull_by_types root org ic)).1
       = omap (token_warning CURATED_TYPES)
           (PyStr.split ","%char (PyStr.strip line1))
         ++ ["No types selected. Nothing to do."]
    /\ (PyStr.strip line1 = EmptyString ->
        warnings (exec w h (pull_by_types root org ic)).1
        = ["No types selected. Nothing to do."]).
Proof.
  intros w h root org ic line1 line2 Hin Hsel.
  destruct (pull_by_types_holds root org ic w h) as [_ H].
  specialize (H line1 line2 Hin). cbv zeta in H. rewrite Hsel in H.
  destruct H as (Hs & Ho & Hw). repeat split; try assumption.
  intros Hblank. rewrite Hw, Hblank. reflexivity.
Qed.

Lemma empty_selection_is_a_no_op_witness :
  spawned (exec blank_world [] (pull_by_types "/repo" "org" false)).1 = []
  /\ (exec blank_world [] (pull_by_types "/repo" "org" false)).2 = Returned tt
  /\ warnings (exec blank_world [] (pull_by_types "/repo" "org" false)).1
     = ["No types selected. Nothing to do."].
Proof.
  assert (Hin : inputs (exec blank_world [] (pull_by_types "/repo" "org" false)).1
                = [Some EmptyString; Some EmptyString]) by (vm_compute; reflexivity).
  assert (Hsel : selected_types EmptyString EmptyString = []) by reflexivity.
  destruct (empty_selection_is_a_no_op blank_world [] "/repo" "org" false
              EmptyString EmptyString Hin Hsel) as (Hs & Ho & _ & Hw).
  split; [exact Hs | split; [exact Ho | exact (Hw eq_refl)]].
Defined.

(** *** The retrieval commands *)

Lemma last_snoc_flags (flag : string) (items : list string) (pre : list string) (x : string) :
  last (pre ++ [x] ++ flat_map (fun item => [flag; item]) items)
  = last (x :: items).
Proof.
  revert pre x. induction items as [|y items IH]; intros pre x.
  - simpl. apply last_snoc.
  - change (flat_map (fun item => [flag; item]) (y :: items))
      with ([flag] ++ [y] ++ flat_map (fun item => [flag; item]) items).
    rewrite !app_assoc, <- (app_assoc _ [y]). now rewrite IH.
Qed.

Lemma retrieve_command_last target_org flag items :
  last (retrieve_command target_org flag items true) = Some "--ignore-conflicts"
  /\ last (retrieve_command target_org flag items false)
     = last (target_org :: items).
Proof.
  unfold retrieve_command. split.
  - rewrite !app_assoc. apply last_snoc.
  - rewrite app_nil_r.
    apply (last_snoc_flags flag items
             ["sf"; "project"; "retrieve"; "start"; "--target-org"] target_org).
Qed.

Lemma pull_everything_holds root org ic :
  holds (pull_everything root org ic)
    (fun t o => spawned t = [retrieve_command org EmptyString [] ic]).
Proof.
  unfold pull_everything. steps.
  all: split_report; unfold retrieve_command; destruct ic; reflexivity.
Qed.

Lemma pull_by_paths_holds root org ic :
  holds (pull_by_paths root org ic)
    (fun t o =>
       forall cmd, In cmd (spawned t) ->
         exists line, inputs t = [Some line]
           /\ cmd = retrieve_command org "--source-dir"
                      (stripped_items (PyStr.strip line)) ic).
Proof.
  unfold pull_by_paths. steps.
  all: split_report; rewrite ?(built_command org "--source-dir" (fun p => p));
    rewrite ?map_id; simpl; intros cmd Hcmd; try tauto.
  all: destruct Hcmd as [<-|[]]; eexists; split; reflexivity.
Qed.

Lemma pull_by_manifest_holds root org ic :
  holds (pull_by_manifest root org ic)
    (fun t o =>
       forall cmd, In cmd (spawned t) ->
         starts_with retrieve_prefix cmd = true ->
         exists path, manifest_selected root t path
           /\ cmd = retrieve_command org "--manifest" [path] ic).
Proof.
  unfold pull_by_manifest, retrieve_manifest, ask. steps.
  all: split_report; simpl; intros cmd Hcmd Hpre; try tauto.
  all: repeat match goal with
         | H : negb ?b = false |- _ => destruct b; [clear H | discriminate H]
         | H : _ \/ _ |- _ => destruct H as [<-|H]
         | H : False |- _ => destruct H
         | H : (_ =? _)%string = true |- _ => apply String.eqb_eq in H
         end;
       try discriminate Hpre.
  all: eexists; split; [|unfold retrieve_command; destruct ic; reflexivity].
  all: first
         [ left; eexists _, _, _;
           split; [reflexivity|]; split; [eassumption|]; split; reflexivity
         | right; eexists;
           split; [reflexivity|]; split; [eassumption|];
           split; [reflexivity|]; split; reflexivity ].
Qed.

(** C9, as stated, fails: with the toggle off, the command [pull_by_paths]
    builds for the path "--ignore-conflicts" ends with that very token. *)
Lemma conflict_token_without_toggle :
  spawned (exec flag_path_world [] (pull_by_paths "/repo" "org" false)).1
  = [["sf"; "project"; "retrieve"; "start"; "--target-org"; "org";
      "--source-dir"; "--ignore-conflicts"]]
  /\ last ["sf"; "project"; "retrieve"; "start"; "--target-org"; "org";
           "--source-dir"; "--ignore-conflicts"]
     = Some "--ignore-conflicts".
Proof. split; vm_compute; reflexivity. Qed.

(** C9, amended: every retrieval command of the four pull handlers is
    [retrieve_command]: the six tokens sf project retrieve start
    --target-org org, then one flag and value for every selected item (none
    for [pull_everything], "--metadata" and "type:*" for every selected
    type, "--source-dir" for every path, "--manifest" for the manifest
    selected: with choice 1 the file the path the operator named, or the
    proposed default on a blank answer, resolves to under the project
    root, with choice 2 the generated manifest; in both cases the last
    file looked up and found), then "--ignore-conflicts" exactly when the
    toggle is set. With
    the toggle set the command ends with that token; with the toggle off
    nothing follows the last value, so the command ends with whatever the
    last value, or the org with no item, is. *)
Theorem retrieval_commands_shape :
  forall (w : world) (h : list event) (root org : string) (ic : bool),
    spawned (exec w h (pull_everything root org ic)).1
    = [retrieve_command org EmptyString [] ic]
    /\ (forall cmd,
           In cmd (spawned (exec w h (pull_by_types root org ic)).1) ->
           exists line1 line2,
             inputs (exec w h (pull_by_types root org ic)).1 = [Some line1; Some line2]
             /\ cmd = retrieve_command org "--metadata"
                        (map (fun ty => ty +:+ ":*") (selected_types line1 line2)) ic)
    /\ (forall cmd,
           In cmd (spawned (exec w h (pull_by_paths root org ic)).1) ->
           exists line,
             inputs (exec w h (pull_by_paths root org ic)).1 = [Some line]
             /\ cmd = retrieve_command org "--source-dir"
                        (stripped_items (PyStr.strip line)) ic)
    /\ (forall cmd,
           In cmd (spawned (exec w h (pull_by_manifest root org ic)).1) ->
           starts_with retrieve_prefix cmd = true ->
           exists path,
             manifest_selected root (exec w h (pull_by_manifest root org ic)).1 path
             /\ cmd = retrieve_command org "--manifest" [path] ic)
    /\ (forall flag items,
           take 6 (retrieve_command org flag items ic)
           = ["sf"; "project"; "retrieve"; "start"; "--target-org"; org]
           /\ length (retrieve_command org flag items ic)
              = 6 + 2 * length items + (if ic then 1 else 0)
           /\ last (retrieve_command org flag items true) = Some "--ignore-conflicts"
           /\ last (retrieve_command org flag items false) = last (org :: items)).
Proof.
  intros w h root org ic. repeat apply conj.
  - apply pull_everything_holds.
  - intros cmd Hcmd.
    destruct (pull_by_types_holds root org ic w h) as [[Hnone|(l1 & l2 & Hin)] H].
    + rewrite Hnone in Hcmd. destruct Hcmd.
    + exists l1, l2. split; [exact Hin|].
      specialize (H l1 l2 Hin). cbv zeta in H.
      destruct (selected_types l1 l2) as [|ty types].
      * destruct H as [Hnone _]. rewrite Hnone in Hcmd. destruct Hcmd.
      * destruct H as [Hone _]. rewrite Hone in Hcmd.
        destruct Hcmd as [<-|[]]. reflexivity.
  - apply pull_by_paths_holds.
  - apply pull_by_manifest_holds.
  - intros flag items. repeat apply conj.
    + reflexivity.
    + unfold retrieve_command. rewrite !length_app.
      assert (Hl : length (flat_map (fun item => [flag; item]) items) = 2 * length items).
      { induction items as [|x items IH]; simpl in *; lia. }
      rewrite Hl. destruct ic; simpl; lia.
    + apply retrieve_command_last.
    + apply retrieve_command_last.
Qed.

Lemma retrieval_commands_shape_witness :
  In ["sf"; "project"; "retrieve"; "start"; "--target-org"; "org";
      "--source-dir"; "force-app/main/default/classes";
      "--source-dir"; "force-app/main/default/lwc";
      "--ignore-conflicts"]
    (spawned (exec two_paths_world [] (pull_by_paths "/repo" "org" true)).1)
  /\ (exists line,
       inputs (exec two_paths_world [] (pull_by_paths "/repo" "org" true)).1 = [Some line]
       /\ ["sf"; "project"; "retrieve"; "start"; "--target-org"; "org";
           "--source-dir"; "force-app/main/default/classes";
           "--source-dir"; "force-app/main/default/lwc";
           "--ignore-conflicts"]
          = retrieve_command "org" "--source-dir"
              (stripped_items (PyStr.strip line)) true)
  /\ exists path,
       manifest_selected "/repo"
         (exec other_manifest_world [] (pull_by_manifest "/repo" "org" false)).1 path
       /\ ["sf"; "project"; "retrieve"; "start"; "--target-org"; "org";
           "--manifest"; "/repo/other/package.xml"]
          = retrieve_command "org" "--manifest" [path] false.
Proof.
  assert (Hin : In ["sf"; "project"; "retrieve"; "start"; "--target-org"; "org";
                    "--source-dir"; "force-app/main/default/classes";
                    "--source-dir"; "force-app/main/default/lwc";
                    "--ignore-conflicts"]
                  (spawned (exec two_paths_world [] (pull_by_paths "/repo" "org" true)).1))
    by (vm_compute; left; reflexivity).
  split; [exact Hin|]. split.
  - destruct (retrieval_commands_shape two_paths_world [] "/repo" "org" true)
      as (_ & _ & Hpaths & _).
    exact (Hpaths _ Hin).
  - destruct (retrieval_commands_shape other_manifest_world [] "/repo" "org" false)
      as (_ & _ & _ & Hmanifest & _).
    apply Hmanifest; [vm_compute; left; reflexivity | reflexivity].
Defined.

(** The manifest selected is one file: [manifest_selected] leaves no
    choice, also when the default manifest is there and another file is
    named. *)
Lemma manifest_selected_unique root t path1 path2 :
  manifest_selected root t path1 -> manifest_selected root t path2 -> path1 = path2.
Proof.
  intros [(l1 & r1 & d1 & Hi1 & _ & Hl1 & _) | (l1 & Hi1 & _ & Hl1 & _)]
         [(l2 & r2 & d2 & Hi2 & _ & Hl2 & _) | (l2 & Hi2 & _ & Hl2 & _)];
    rewrite Hi1 in Hi2; try discriminate Hi2; rewrite Hl1 in Hl2; congruence.
Qed.

(** * Further properties *)

(** ** The shape of a normalised name *)

Lemma lower_norm_char c : PyStr.lower_char (norm_char c) = norm_char c.
Proof. destruct c as [[] [] [] [] [] [] [] []]; reflexivity. Qed.

Lemma norm_char_not_space c : negb (Ascii.eqb (norm_char c) " "%char) = true.
Proof. destruct c as [[] [] [] [] [] [] [] []]; reflexivity. Qed.

Lemma norm_env_smap name : norm_env name = PyStr.smap norm_char (PyStr.strip name).
Proof. unfold norm_env. apply replace_lower. Qed.

(** X1: a normalised name has no white space at either end, is its own
    lower case, and holds no space. *)
Theorem norm_env_shape :
  forall name : string,
    PyStr.strip (norm_env name) = norm_env name
    /\ PyStr.lower (norm_env name) = norm_env name
    /\ PyStr.sforall (fun c => negb (Ascii.eqb c " "%char)) (norm_env name) = true.
Proof.
  intros name. rewrite !norm_env_smap. repeat apply conj.
  - apply strip_smap_strip.
  - unfold PyStr.lower. induction (PyStr.strip name) as [|c s IH]; simpl; [reflexivity|].
    now rewrite lower_norm_char, IH.
  - induction (PyStr.strip name) as [|c s IH]; simpl; [reflexivity|].
    now rewrite norm_char_not_space, IH.
Qed.

(** ** When the multi-select prompt returns *)


Lemma sforall_lstrip P s : PyStr.sforall P s = true -> PyStr.sforall P (PyStr.lstrip s) = true.
Proof.
  induction s as [|c s IH]; simpl; [reflexivity|].
  intros H. apply andb_true_iff in H as [Hc Hs].
  destruct (PyStr.isspace_char c); [now apply IH|]. simpl. now rewrite Hc, Hs.
Qed.

Lemma sforall_rstrip P s : PyStr.sforall P s = true -> PyStr.sforall P (PyStr.rstrip s) = true.
Proof.
  induction s as [|c s IH]; simpl; [reflexivity|].
  intros H. apply andb_true_iff in H as [Hc Hs].
  destruct (PyStr.isspace_char c && PyStr.is_empty (PyStr.rstrip s)); [reflexivity|].
  simpl. now rewrite Hc, IH.
Qed.

Lemma sforall_strip P s : PyStr.sforall P s = true -> PyStr.sforall P (PyStr.strip s) = true.
Proof. intros H. unfold PyStr.strip. now apply sforall_rstrip, sforall_lstrip. Qed.

Lemma sforall_split P sep s :
  PyStr.sforall P s = true ->
  Forall (fun piece => PyStr.sforall P piece = true) (PyStr.split sep s).
Proof.
  induction s as [|c s IH]; simpl; [now repeat constructor|].
  intros H. apply andb_true_iff in H as [Hc Hs]. specialize (IH Hs).
  destruct (Ascii.eqb c sep); [now constructor|].
  destruct (PyStr.split sep s) as [|piece rest]; [now repeat constructor; simpl; rewrite Hc|].
  apply Forall_cons in IH as [Hp Hr]. constructor; [|exact Hr].
  simpl. now rewrite Hc, Hp.
Qed.

Lemma ascii_digit_decimal c :
  is_ascii c = true -> PyStr.isdigit_char c = true ->
  exists d, PyStr.decimal_value c = Some d.
Proof.
  destruct c as [[] [] [] [] [] [] [] []]; intros Ha Hd;
    try discriminate Ha; try discriminate Hd; eexists; reflexivity.
Qed.

Lemma int_acc_ascii s :
  PyStr.sforall is_ascii s = true -> PyStr.sforall PyStr.isdigit_char s = true ->
  forall acc, exists n, PyStr.int_acc acc s = Some n.
Proof.
  induction s as [|c s IH]; simpl; intros Ha Hd acc; [now eexists|].
  apply andb_true_iff in Ha as [Hca Ha], Hd as [Hcd Hd].
  destruct (ascii_digit_decimal c Hca Hcd) as [d ->]. now apply IH.
Qed.

Lemma length_lstrip s : String.length (PyStr.lstrip s) <= String.length s.
Proof.
  induction s as [|c s IH]; simpl; [lia|].
  destruct (PyStr.isspace_char c); simpl; lia.
Qed.

Lemma length_rstrip s : String.length (PyStr.rstrip s) <= String.length s.
Proof.
  induction s as [|c s IH]; simpl; [lia|].
  destruct (PyStr.isspace_char c && PyStr.is_empty (PyStr.rstrip s)); simpl; lia.
Qed.

Lemma length_strip s : String.length (PyStr.strip s) <= String.length s.
Proof.
  unfold PyStr.strip.
  pose proof (length_rstrip (PyStr.lstrip s)). pose proof (length_lstrip s). lia.
Qed.

Lemma length_split sep s :
  Forall (fun piece => String.length piece <= String.length s) (PyStr.split sep s).
Proof.
  induction s as [|c s IH]; simpl; [now repeat constructor|].
  destruct (Ascii.eqb c sep).
  - constructor; [simpl; lia|].
    eapply Forall_impl; [exact IH|]. simpl. intros piece Hp. lia.
  - destruct (PyStr.split sep s) as [|piece rest];
      [constructor; [simpl; lia | constructor]|].
    apply Forall_cons in IH as [Hp Hr]. constructor; [simpl; lia|].
    eapply Forall_impl; [exact Hr|]. simpl. intros q Hq. lia.
Qed.

Lemma ascii_token_accepted token :
  PyStr.sforall is_ascii token = true ->
  String.length token <= PyStr.max_str_digits ->
  token_raises token = false.
Proof.
  intros Ha Hlen. unfold token_raises.
  pose proof (sforall_strip _ _ Ha) as Hs.
  destruct (PyStr.is_empty (PyStr.strip token)) eqn:He; [reflexivity|].
  destruct (PyStr.isdigit (PyStr.strip token)) eqn:Hd; [|reflexivity].
  unfold PyStr.isdigit in Hd. rewrite He in Hd. simpl in Hd.
  unfold PyStr.int. rewrite He.
  assert (Hfits : Nat.ltb PyStr.max_str_digits (String.length (PyStr.strip token))
                  = false).
  { apply Nat.ltb_ge. pose proof (length_strip token). lia. }
  rewrite Hfits.
  now destruct (int_acc_ascii _ Hs Hd 0%N) as [n ->].
Qed.

Lemma ascii_line_accepted line :
  PyStr.sforall is_ascii line = true ->
  String.length line <= PyStr.max_str_digits ->
  existsb token_raises (PyStr.split ","%char (PyStr.strip line)) = false.
Proof.
  intros Ha Hlen.
  pose proof (sforall_split is_ascii ","%char _ (sforall_strip _ _ Ha)) as Hall.
  pose proof (length_split ","%char (PyStr.strip line)) as Hfit.
  pose proof (length_strip line) as Hstrip.
  induction Hall as [|token rest Ht _ IH]; [reflexivity|].
  apply Forall_cons in Hfit as [Hone Hrest].
  simpl. rewrite (ascii_token_accepted _ Ht), IH; [reflexivity | exact Hrest | lia].
Qed.

(** X3: on a line of ASCII characters that is no longer than the number
    of digits [int] converts (4300), [choose_many] always returns a list:
    no such text makes it raise. *)
Theorem choose_many_ascii_returns :
  forall (w : world) (h : list event) (prompt : string) (options : list string)
         (line : string),
    inputs (exec w h (choose_many prompt options)).1 = [Some line] ->
    PyStr.sforall is_ascii line = true ->
    String.length line <= PyStr.max_str_digits ->
    exists result, (exec w h (choose_many prompt options)).2 = Returned result.
Proof.
  intros w h prompt options line Hin Ha Hlen.
  destruct (chosen_inv _ _ _ _ (choose_many_holds prompt options w h))
    as (a & Hl & _ & H).
  rewrite Hin in Hl. injection Hl as <-.
  destruct (exec w h (choose_many prompt options)) as [t o]. simpl in *.
  destruct o as [result|c|e]; [now exists result | destruct H |].
  exfalso. destruct H as [_ Hr].
  rewrite (ascii_line_accepted _ Ha Hlen) in Hr. discriminate.
Qed.

Lemma choose_many_ascii_returns_witness :
  exists result,
    (exec picks_world [] (choose_many "Pick" ["A"; "B"; "C"])).2 = Returned result.
Proof.
  apply (choose_many_ascii_returns picks_world [] "Pick" ["A"; "B"; "C"] "1,3,9,x");
    [vm_compute; reflexivity | vm_compute; reflexivity |].
  unfold PyStr.max_str_digits. simpl. lia.
Defined.

Lemma token_accounted options token :
  token_raises token = false ->
  (if blank_token token then 1 else 0)
  + match token_pick options token with Some _ => 1 | None => 0 end
  + match token_warning options token with Some _ => 1 | None => 0 end = 1.
Proof.
  unfold token_raises, blank_token, token_pick, token_index, token_warning.
  destruct (PyStr.is_empty (PyStr.strip token)); [reflexivity|].
  destruct (PyStr.isdigit (PyStr.strip token)); [|reflexivity].
  destruct (PyStr.int (PyStr.strip token)) as [idx|]; [|discriminate].
  intros _. cbn [negb orb].
  destruct ((1 <=? idx) && (idx <=? N.of_nat (length options)))%N eqn:Hr; [|reflexivity].
  now destruct (in_range_lookup options idx Hr) as [opt ->].
Qed.

Lemma tokens_accounted options tokens :
  existsb token_raises tokens = false ->
  length (List.filter blank_token tokens)
  + length (omap (token_pick options) tokens)
  + length (omap (token_warning options) tokens) = length tokens.
Proof.
  induction tokens as [|token rest IH]; [reflexivity|].
  intros H. apply orb_false_iff in H as [Ht Hr]. specialize (IH Hr).
  pose proof (token_accounted options token Ht) as H1.
  change (omap (token_pick options) (token :: rest))
    with (match token_pick options token with
          | Some y => y :: omap (token_pick options) rest
          | None => omap (token_pick options) rest
          end).
  change (omap (token_warning options) (token :: rest))
    with (match token_warning options token with
          | Some y => y :: omap (token_warning options) rest
          | None => omap (token_warning options) rest
          end).
  simpl List.filter.
  destruct (blank_token token), (token_pick options token),
    (token_warning options token); simpl length in *; lia.
Qed.

(** X4: when [choose_many] returns, every comma-separated token of the
    stripped line is accounted for once: it was blank, or it picked an
    option, or it earned a warning. *)
Theorem choose_many_accounts_for_tokens :
  forall (w : world) (h : list event) (prompt : string) (options : list string)
         (line : string) (result : list string),
    inputs (exec w h (choose_many prompt options)).1 = [Some line] ->
    (exec w h (choose_many prompt options)).2 = Returned result ->
    length (List.filter blank_token (PyStr.split ","%char (PyStr.strip line)))
    + length result
    + length (warnings (exec w h (choose_many prompt options)).1)
    = length (PyStr.split ","%char (PyStr.strip line)).
Proof.
  intros w h prompt options line result Hin Hout.
  destruct (chosen_inv _ _ _ _ (choose_many_holds prompt options w h))
    as (a & Ha & _ & H).
  rewrite Hin in Ha. injection Ha as <-. rewrite Hout in H.
  destruct H as (Hn & -> & ->). now apply tokens_accounted.
Qed.

Lemma choose_many_accounts_for_tokens_witness :
  length (List.filter blank_token (PyStr.split ","%char (PyStr.strip "1,3,9,x")))
  + length ["A"; "C"]
  + length (warnings (exec picks_world [] (choose_many "Pick" ["A"; "B"; "C"])).1)
  = length (PyStr.split ","%char (PyStr.strip "1,3,9,x")).
Proof.
  apply (choose_many_accounts_for_tokens picks_world [] "Pick" ["A"; "B"; "C"]
           "1,3,9,x" ["A"; "C"]);
    vm_compute; reflexivity.
Defined.

(** ** The handlers the claims leave aside *)

(** X5: [reset_tracking] spawns the reset command when, and only when,
    the operator answers y or yes (in any case, blanks around it
    allowed); every other answer, the blank one included, spawns nothing
    and returns to the menu, and so does the end of the input, with
    [EOFError]. *)
Theorem reset_tracking_is_gated :
  forall (w : world) (h : list event) (root org : string),
    spawned (exec w h (reset_tracking root org)).1
    = match inputs (exec w h (reset_tracking root org)).1 with
      | [Some line] =>
          if affirmative line
          then [["sf"; "project"; "reset"; "tracking"; "--target-org"; org; "--no-prompt"]]
          else []
      | _ => []
      end
    /\ match inputs (exec w h (reset_tracking root org)).1 with
       | [Some line] =>
           affirmative line = false ->
           (exec w h (reset_tracking root org)).2 = Returned tt
       | _ => (exec w h (reset_tracking root org)).2 = Raised EOFError
       end.
Proof.
  intros w h root org. revert w h.
  change (holds (reset_tracking root org)
            (fun t o =>
               spawned t
               = match inputs t with
                 | [Some line] =>
                     if affirmative line
                     then [["sf"; "project"; "reset"; "tracking"; "--target-org"; org;
                            "--no-prompt"]]
                     else []
                 | _ => []
                 end
               /\ match inputs t with
                  | [Some line] => affirmative line = false -> o = Returned tt
                  | _ => o = Raised EOFError
                  end)).
  unfold reset_tracking, ask_bool. steps.
  all: split_report; simpl in *; try discriminate; unfold affirmative;
    repeat match goal with
      | H : PyStr.is_empty ?v = true |- _ => destruct v; [clear H | discriminate H]
      | H : negb (_ || _) = true |- _ => apply negb_true_iff in H; rewrite H
      | H : negb (_ || _) = false |- _ => apply negb_false_iff in H; rewrite H
      end;
    simpl; try (split; [reflexivity | intros; try reflexivity; discriminate]).
Qed.

(** X6: [pull_by_paths] on a blank line spawns nothing and warns once; on
    any other line it spawns one retrieval command with a "--source-dir"
    pair for every non-blank piece. A line that is not blank and yet names
    no path (commas only) therefore spawns the unfiltered command, the one
    [pull_everything] spawns. *)
Theorem pull_by_paths_edges :
  forall (w : world) (h : list event) (root org : string) (ic : bool)
         (line : string),
    inputs (exec w h (pull_by_paths root org ic)).1 = [Some line] ->
    (PyStr.strip line = EmptyString ->
     spawned (exec w h (pull_by_paths root org ic)).1 = []
     /\ (exec w h (pull_by_paths root org ic)).2 = Returned tt
     /\ warnings (exec w h (pull_by_paths root org ic)).1
        = ["No paths provided. Nothing to do."])
    /\ (PyStr.strip line <> EmptyString ->
        spawned (exec w h (pull_by_paths root org ic)).1
        = [retrieve_command org "--source-dir" (stripped_items (PyStr.strip line)) ic]
        /\ warnings (exec w h (pull_by_paths root org ic)).1 = [])
    /\ (PyStr.strip line <> EmptyString ->
        stripped_items (PyStr.strip line) = [] ->
        forall (w' : world) (h' : list event),
          spawned (exec w h (pull_by_paths root org ic)).1
          = spawned (exec w' h' (pull_everything root org ic)).1).
Proof.
  intros w h root org ic line.
  assert (H : holds (pull_by_paths root org ic)
                (fun t o =>
                   forall line, inputs t = [Some line] ->
                     if PyStr.is_empty (PyStr.strip line)
                     then spawned t = [] /\ o = Returned tt
                          /\ warnings t = ["No paths provided. Nothing to do."]
                     else spawned t
                          = [retrieve_command org "--source-dir"
                               (stripped_items (PyStr.strip line)) ic]
                          /\ warnings t = [])).
  { unfold pull_by_paths. steps.
    all: split_report; rewrite ?(built_command org "--source-dir" (fun p => p));
      rewrite ?map_id; simpl; intros l Hl; try discriminate Hl;
      injection Hl as <-;
      match goal with Hb : PyStr.is_empty _ = _ |- _ => rewrite Hb end;
      repeat split; reflexivity. }
  specialize (H w h line).
  destruct (exec w h (pull_by_paths root org ic)) as [t o]. cbn [fst snd] in *.
  intros Hin. specialize (H Hin).
  destruct (PyStr.strip line) as [|c rest] eqn:Hs; cbn [PyStr.is_empty] in H.
  - split; [intros _; exact H|]. split; intros Hne; now destruct Hne.
  - split; [discriminate|]. split; [intros _; exact H|].
    intros _ Hnone w' h'. destruct H as [-> _]. rewrite Hnone.
    symmetry. apply pull_everything_holds.
Qed.

Lemma pull_by_paths_edges_witness :
  spawned (exec comma_world [] (pull_by_paths "/repo" "org" false)).1
  = [["sf"; "project"; "retrieve"; "start"; "--target-org"; "org"]]
  /\ spawned (exec comma_world [] (pull_by_paths "/repo" "org" false)).1
     = spawned (exec ready_world [] (pull_everything "/repo" "org" false)).1.
Proof.
  assert (Hin : inputs (exec comma_world [] (pull_by_paths "/repo" "org" false)).1
                = [Some ","]) by (vm_compute; reflexivity).
  destruct (pull_by_paths_edges comma_world [] "/repo" "org" false "," Hin)
    as (_ & Hsome & Hall).
  split.
  - apply Hsome. discriminate.
  - apply Hall; [discriminate | reflexivity].
Defined.

Ltac use_choice :=
  repeat match goal with
    | H : PyStr.strip ?l = _, E : context [PyStr.strip ?l] |- _ =>
        lazymatch E with H => fail | _ => rewrite H in E; simpl in E end
    end.

(** X7: with choice 2 the file [pull_by_manifest] looks up is the
    generated manifest, manifest/package.xml under the project root; when
    the file is not there the handler exits with code 1 having spawned the
    generation command alone, and when it is there the retrieval with that
    manifest follows the generation. *)
Theorem generated_manifest_must_exist :
  forall (w : world) (h : list event) (root org : string) (ic : bool)
         (line p : string) (found : bool),
    inputs (exec w h (pull_by_manifest root org ic)).1 = [Some line] ->
    PyStr.strip line = "2" ->
    lookups (exec w h (pull_by_manifest root org ic)).1 = [(p, found)] ->
    p = generated_manifest root
    /\ spawned (exec w h (pull_by_manifest root org ic)).1
       = generate_command root org
         :: (if found
             then [retrieve_command org "--manifest" [generated_manifest root] ic]
             else [])
    /\ (found = false -> (exec w h (pull_by_manifest root org ic)).2 = Exited 1).
Proof.
  intros w h root org ic line p found. revert w h.
  change (holds (pull_by_manifest root org ic)
            (fun t o =>
               inputs t = [Some line] ->
               PyStr.strip line = "2" ->
               lookups t = [(p, found)] ->
               p = generated_manifest root
               /\ spawned t
                  = generate_command root org
                    :: (if found
                        then [retrieve_command org "--manifest" [generated_manifest root] ic]
                        else [])
               /\ (found = false -> o = Exited 1))).
  unfold pull_by_manifest, retrieve_manifest, ask. steps.
  all: split_report; simpl; intros Hin Hline Hlook;
    try discriminate Hin; try discriminate Hlook.
  all: injection Hin as <-; use_choice; try discriminate.
  all: injection Hlook as <- <-.
  all: repeat match goal with
         | H : negb ?b = _ |- _ => is_var b; destruct b; try discriminate H; clear H
         end.
  all: unfold retrieve_command, generate_command, generated_manifest;
    destruct ic; repeat split; try reflexivity; discriminate.
Qed.

Lemma generated_manifest_must_exist_witness :
  spawned (exec no_file_world [] (pull_by_manifest "/repo" "org" false)).1
  = [generate_command "/repo" "org"]
  /\ (exec no_file_world [] (pull_by_manifest "/repo" "org" false)).2 = Exited 1.
Proof.
  destruct (generated_manifest_must_exist no_file_world [] "/repo" "org" false
              "2" "/repo/manifest/package.xml" false)
    as (_ & Hs & He); try (vm_compute; reflexivity).
  split; [exact Hs | exact (He eq_refl)].
Defined.

(** X8: an answer to the manifest sub-menu that strips to neither 1 nor
    2 makes [pull_by_manifest] a no-op: one warning, no lookup, no
    command, and back to the menu. *)
Theorem invalid_manifest_choice_is_a_no_op :
  forall (w : world) (h : list event) (root org : string) (ic : bool)
         (line : string),
    inputs (exec w h (pull_by_manifest root org ic)).1 = [Some line] ->
    PyStr.strip line <> "1" ->
    PyStr.strip line <> "2" ->
    spawned (exec w h (pull_by_manifest root org ic)).1 = []
    /\ lookups (exec w h (pull_by_manifest root org ic)).1 = []
    /\ warnings (exec w h (pull_by_manifest root org ic)).1
       = ["Invalid choice; aborting manifest flow."]
    /\ (exec w h (pull_by_manifest root org ic)).2 = Returned tt.
Proof.
  intros w h root org ic line. revert w h.
  change (holds (pull_by_manifest root org ic)
            (fun t o =>
               inputs t = [Some line] ->
               PyStr.strip line <> "1" ->
               PyStr.strip line <> "2" ->
               spawned t = [] /\ lookups t = []
               /\ warnings t = ["Invalid choice; aborting manifest flow."]
               /\ o = Returned tt)).
  unfold pull_by_manifest, retrieve_manifest, ask. steps.
  all: split_report; simpl; intros Hin H1 H2; try discriminate Hin.
  all: try (injection Hin as <-).
  all: repeat match goal with
         | H : (_ =? _)%string = true |- _ => apply String.eqb_eq in H
         end;
    try contradiction.
  all: now repeat split.
Qed.

Lemma invalid_manifest_choice_is_a_no_op_witness :
  spawned (exec wrong_choice_world [] (pull_by_manifest "/repo" "org" false)).1 = []
  /\ (exec wrong_choice_world [] (pull_by_manifest "/repo" "org" false)).2 = Returned tt.
Proof.
  destruct (invalid_manifest_choice_is_a_no_op wrong_choice_world [] "/repo" "org"
              false "3")
    as (Hs & _ & _ & Ho); try (vm_compute; reflexivity); try discriminate.
  split; [exact Hs | exact Ho].
Defined.

(** ** The menu loop *)

Lemma holds_bind_const {A B} (p : prog A) (b : B) (Q : list event -> outcome B -> Prop) :
  (forall t o, (forall b', o = Returned b' -> b' = b) -> Q t o) ->
  holds (bind p (fun _ => Ret b)) Q.
Proof.
  intros H w h. rewrite exec_bind. destruct (exec w h p) as [t o]. simpl.
  destruct o as [a|c|e]; simpl; apply H; intros b' Hb; try discriminate Hb.
  now injection Hb as <-.
Qed.

Lemma menu_turn_holds root org ic : holds (menu_turn root org ic) turn_post.
Proof.
  unfold menu_turn. steps.
  all: try (apply holds_bind_const; intros t o Hb).
  all: unfold turn_post, menu_choices; simpl; split;
    [ intros Ho; try (specialize (Hb _ Ho)); try discriminate
    | intros l Hl Hn; try discriminate Hl; injection Hl as <- ].
  all: repeat match goal with
         | H : (_ =? _)%string = true |- _ => apply String.eqb_eq in H
         end.
  all: try (exfalso; apply Hn;
            match goal with H : PyStr.strip _ = _ |- _ => rewrite H end; tauto).
  all: try (eexists; now repeat split).
  all: now repeat split.
Qed.

Lemma last_inputs_app t1 t2 x :
  last (inputs t2) = Some x -> last (inputs (t1 ++ t2)) = Some x.
Proof.
  rewrite inputs_app. destruct (inputs t2) as [|y l] using rev_ind; [discriminate|].
  rewrite app_assoc, !last_snoc. trivial.
Qed.

Lemma menu_holds root org ic turns :
  holds (menu turns root org ic)
    (fun t o =>
       o = Returned true ->
       exists line, last (inputs t) = Some (Some line) /\ PyStr.strip line = "6").
Proof.
  induction turns as [|turns IH]; cbn [menu].
  - apply holds_ret. discriminate.
  - apply (holds_bind _ _ _ _ (menu_turn_holds root org ic)).
    intros t1 o1 [Hstop _]. destruct o1 as [[|]|c|e]; try discriminate.
    + eapply holds_weaken; [apply IH|]. intros t o H Ho.
      destruct (H Ho) as (line & Hlast & Hline). exists line. split; [|exact Hline].
      now apply last_inputs_app.
    + apply holds_ret. intros _.
      destruct (Hstop eq_refl) as (line & Hin & Hline & _).
      exists line. rewrite app_nil_r, Hin. now split.
Qed.

(** X9: the menu loop is left in the ordinary way only through the
    answer 6: whenever the loop has ended by [break], the last line read
    strips to "6". *)
Theorem menu_is_left_by_six :
  forall (w : world) (h : list event) (turns : nat) (root org : string) (ic : bool),
    (exec w h (menu turns root org ic)).2 = Returned true ->
    exists line,
      last (inputs (exec w h (menu turns root org ic)).1) = Some (Some line)
      /\ PyStr.strip line = "6".
Proof. intros w h turns root org ic. apply menu_holds. Qed.

Lemma menu_is_left_by_six_witness :
  exists line,
    last (inputs (exec leaving_world [] (menu 5 "/repo" "org" false)).1)
    = Some (Some line)
    /\ PyStr.strip line = "6".
Proof.
  apply (menu_is_left_by_six leaving_world [] 5 "/repo" "org" false).
  vm_compute. reflexivity.
Defined.

(** X10: an answer to the menu that strips to none of 1 to 6 is not
    fatal: the turn spawns nothing, reads nothing more, warns once and
    asks for the next turn. *)
Theorem unknown_menu_choice_continues :
  forall (w : world) (h : list event) (root org : string) (ic : bool) (line : string),
    hd_error (inputs (exec w h (menu_turn root org ic)).1) = Some (Some line) ->
    ~ In (PyStr.strip line) menu_choices ->
    (exec w h (menu_turn root org ic)).2 = Returned true
    /\ inputs (exec w h (menu_turn root org ic)).1 = [Some line]
    /\ spawned (exec w h (menu_turn root org ic)).1 = []
    /\ warnings (exec w h (menu_turn root org ic)).1 = ["Invalid choice. Try again."].
Proof.
  intros w h root org ic line. apply (menu_turn_holds root org ic w h).
Qed.

Lemma unknown_menu_choice_continues_witness :
  (exec leaving_world [] (menu_turn "/repo" "org" false)).2 = Returned true
  /\ spawned (exec leaving_world [] (menu_turn "/repo" "org" false)).1 = [].
Proof.
  destruct (unknown_menu_choice_continues leaving_world [] "/repo" "org" false "x")
    as (Ho & _ & Hs & _).
  - vm_compute. reflexivity.
  - vm_compute. intuition discriminate.
  - split; [exact Ho | exact Hs].
Defined.

(** ** The guards of the sequencer stages *)

Ltac settle_lookup :=
  repeat match goal with
    | H : negb ?b = _ |- _ => is_var b; destruct b; try discriminate H; clear H
    end.

(** X11: [create_scratch_org] looks for the scratch definition first and
    for nothing else; without it the stage exits with code 1 and spawns
    nothing; with it the stage spawns one command, which asks for 7 days
    in review mode and 30 otherwise, and for the Preview release exactly
    in preview mode. *)
Theorem create_scratch_org_guard :
  forall (w : world) (h : list event) (root alias : string) (review_mode preview_mode : bool),
    exists found : bool,
      lookups (exec w h (create_scratch_org root alias review_mode preview_mode)).1
      = [(SCRATCH_DEF root, found)]
      /\ spawned (exec w h (create_scratch_org root alias review_mode preview_mode)).1
         = (if found then [scratch_command root alias review_mode preview_mode] else [])
      /\ (found = false ->
          (exec w h (create_scratch_org root alias review_mode preview_mode)).2 = Exited 1).
Proof.
  intros w h root alias review_mode preview_mode. revert w h.
  change (holds (create_scratch_org root alias review_mode preview_mode)
            (fun t o =>
               exists found : bool,
                 lookups t = [(SCRATCH_DEF root, found)]
                 /\ spawned t
                    = (if found then [scratch_command root alias review_mode preview_mode]
                       else [])
                 /\ (found = false -> o = Exited 1))).
  unfold create_scratch_org. steps.
  all: split_report; settle_lookup; simpl; eexists; split; [reflexivity|];
    unfold scratch_command; destruct preview_mode; split;
    try reflexivity; discriminate.
Qed.

(** X12: [deploy_source_metadata] looks for the project directory first;
    without it the stage exits with code 1 and spawns nothing; with it the
    stage spawns the one deploy command, to run in the project
    directory. *)
Theorem deploy_source_metadata_guard :
  forall (w : world) (h : list event) (root alias : string),
    exists found : bool,
      lookups (exec w h (deploy_source_metadata root alias)).1
      = [(SFDX_PROJECT_DIR root, found)]
      /\ spawned_in (exec w h (deploy_source_metadata root alias)).1
         = (if found then [(deploy_command root alias, Some (SFDX_PROJECT_DIR root))]
            else [])
      /\ (found = false ->
          (exec w h (deploy_source_metadata root alias)).2 = Exited 1).
Proof.
  intros w h root alias. revert w h.
  change (holds (deploy_source_metadata root alias)
            (fun t o =>
               exists found : bool,
                 lookups t = [(SFDX_PROJECT_DIR root, found)]
                 /\ spawned_in t
                    = (if found
                       then [(deploy_command root alias, Some (SFDX_PROJECT_DIR root))]
                       else [])
                 /\ (found = false -> o = Exited 1))).
  unfold deploy_source_metadata. steps.
  all: split_report; settle_lookup; simpl; eexists; split; [reflexivity|];
    split; try reflexivity; discriminate.
Qed.

(** ** The order of the sequencer *)

Lemma children_spawned t : map fst (children t) = spawned t.
Proof.
  induction t as [|[e a] t IH]; [reflexivity|].
  destruct e; try exact IH; simpl; now rewrite <- IH.
Qed.

Lemma children_outputs cmd t : omap (child_output cmd) (children t) = outputs_of cmd t.
Proof.
  induction t as [|[e a] t IH]; [reflexivity|].
  destruct e; try exact IH.
  destruct a as [|code out]; [exact IH|].
  unfold outputs_of, children, child_output in *. cbn -[starts_with] in *.
  destruct (starts_with cmd cmd0); [|exact IH].
  destruct out; [now rewrite <- IH | exact IH].
Qed.

Lemma children_codes t : omap child_code (children t) = return_codes t.
Proof.
  induction t as [|[e a] t IH]; [reflexivity|].
  destruct e; try exact IH.
  destruct a as [|code out]; [exact IH|].
  unfold return_codes, children, child_code in *. cbn in *. now rewrite <- IH.
Qed.

(** *** Where a NUL in a command comes from *)

Lemma has_nul_app a b : has_nul (a +:+ b) = has_nul a || has_nul b.
Proof.
  induction a as [|c a IH]; [reflexivity|].
  change (String c a +:+ b) with (String c (a +:+ b)).
  cbn [has_nul]. now rewrite IH, orb_assoc.
Qed.

Lemma has_nul_path_join dir name :
  has_nul (path_join dir name) = has_nul dir || has_nul name.
Proof.
  unfold path_join. destruct (String.eqb dir "/"); rewrite !has_nul_app; [reflexivity|].
  cbn [has_nul]. now rewrite orb_false_r.
Qed.

Lemma has_nul_lstrip s : has_nul (PyStr.lstrip s) = has_nul s.
Proof.
  induction s as [|c s IH]; [reflexivity|]. cbn [PyStr.lstrip].
  destruct (PyStr.isspace_char c) eqn:E; [|reflexivity].
  rewrite IH. cbn [has_nul].
  destruct c as [[] [] [] [] [] [] [] []]; try reflexivity; discriminate E.
Qed.

Lemma has_nul_rstrip s : has_nul (PyStr.rstrip s) = has_nul s.
Proof.
  induction s as [|c s IH]; [reflexivity|]. cbn [PyStr.rstrip].
  destruct (PyStr.isspace_char c && PyStr.is_empty (PyStr.rstrip s)) eqn:E.
  - apply andb_true_iff in E as [Ec Ee]. cbn [has_nul]. rewrite <- IH.
    destruct (PyStr.rstrip s); [|discriminate Ee].
    destruct c as [[] [] [] [] [] [] [] []]; try reflexivity; discriminate Ec.
  - cbn [has_nul]. now rewrite IH.
Qed.

Lemma has_nul_norm_env name : has_nul (norm_env name) = has_nul name.
Proof.
  rewrite norm_env_smap. unfold PyStr.strip.
  rewrite <- (has_nul_lstrip name), <- (has_nul_rstrip (PyStr.lstrip name)).
  induction (PyStr.rstrip (PyStr.lstrip name)) as [|c s IH]; [reflexivity|].
  cbn [PyStr.smap has_nul]. rewrite IH. f_equal.
  destruct c as [[] [] [] [] [] [] [] []]; reflexivity.
Qed.

(** A refused command of [main] points at the argument with the NUL. *)
Ltac nul_found :=
  match goal with
  | H : embedded_null _ _ = true |- _ =>
      revert H;
      unfold embedded_null, nul_in_arguments, SCRATCH_DEF, SOURCE_DIR, SFDX_PROJECT_DIR;
      repeat match goal with
        | |- context [if ?b then _ else _] => destruct b
        end;
      cbn [existsb app start_development.environment start_development.devhub_url];
      rewrite ?has_nul_app, ?has_nul_path_join, ?has_nul_norm_env;
      cbn [has_nul Ascii.eqb Bool.eqb orb andb];
      repeat match goal with
        | |- context [has_nul ?x] => destruct (has_nul x)
        end;
      cbn [orb]; intros H; first [reflexivity | discriminate H]
  end.

Ltac end_well :=
  unfold ends_well;
  first [ now left
        | now (right; left)
        | now (right; right; left)
        | now (right; right; right; left)
        | right; right; right; right; split; [reflexivity | nul_found] ].

Lemma built_create (p : bool) (c x : list string) :
  (if p then c ++ x else c) = c ++ (if p then x else []).
Proof. destruct p; [reflexivity | now rewrite app_nil_r]. Qed.

Ltac use_conditions :=
  repeat match goal with
    | H : negb _ = true |- _ => apply negb_true_iff in H
    | H : negb _ = false |- _ => apply negb_false_iff in H
    end;
  repeat match goal with
    | H : context [or_empty (Some _)] |- _ => cbn [or_empty] in H
    end;
  repeat match goal with
    | H : ?c = true |- _ => rewrite H
    | H : ?c = false |- _ => rewrite H
    end.

Lemma main_pipeline_holds root args :
  holds (main root args) (fun t o => pipeline_check root args (children t) o).
Proof.
  destruct args as [env rev url force prev].
  unfold main, main_steps, git_prepare_branch, check_sfcli_exists, login_devhub,
    create_scratch_org, deploy_source_metadata, open_scratch_org, scratch_alias.
  cbn [start_development.environment start_development.review
       start_development.devhub_url start_development.force_devhub_connection
       start_development.preview].
  steps.
  all: split_report.
  all: cbv [children omap list_omap].
  all: unfold pipeline_check, pipeline, branch_commands, create_command, deploy_command,
         scratch_alias;
    cbn [start_development.environment start_development.review
         start_development.devhub_url start_development.force_devhub_connection
         start_development.preview];
    rewrite ?built_create.
  all: cbv [child_output child_code omap list_omap hd starts_with fst snd map
            String.eqb Ascii.eqb Bool.eqb andb].
  all: use_conditions.
  all: (split; [eexists; reflexivity|]); (split; [|end_well]).
  all: intros Ho; try discriminate Ho.
  all: split; [reflexivity | repeat constructor].
Qed.

(** X13: the commands of every run of [main] are, in order, the first
    commands of the pipeline (branch preparation, CLI check, org list,
    login when forced or when the list lacks the Dev Hub, org list again,
    creation, deployment, launch): no stage starts before the one before
    it is through; a run that returns has issued the whole pipeline and
    none of its children failed. In review mode the local branch is
    deleted exactly when the branch listing contains the name. *)
Theorem main_follows_the_pipeline :
  forall (w : world) (h : list event) (root : string) (args : Args),
    let t := (exec w h (main root args)).1 in
    let listed := hd EmptyString (outputs_of ["git"; "branch"; "--list"] t) in
    let orgs := hd EmptyString (outputs_of ["sf"; "org"; "list"] t) in
    spawned t `prefix_of` pipeline root args listed orgs
    /\ ((exec w h (main root args)).2 = Returned tt ->
        spawned t = pipeline root args listed orgs
        /\ Forall (fun code => code = 0%Z) (return_codes t)).
Proof.
  intros w h root args t listed orgs.
  destruct (main_pipeline_holds root args w h) as (Hpre & Hall & _).
  cbv zeta in Hpre, Hall.
  rewrite children_spawned, !children_outputs in Hpre.
  rewrite children_spawned, !children_outputs, children_codes in Hall.
  split; [exact Hpre | exact Hall].
Qed.

Lemma main_follows_the_pipeline_witness :
  spawned (exec ready_world [] (main "/repo" demo_args)).1
  = pipeline "/repo" demo_args EmptyString "DevHub  hub@example.com  Connected"
  /\ Forall (fun code => code = 0%Z)
       (return_codes (exec ready_world [] (main "/repo" demo_args)).1).
Proof.
  destruct (main_follows_the_pipeline ready_world [] "/repo" demo_args) as [_ H].
  apply H. vm_compute. reflexivity.
Defined.


(** ** Announcing the commands *)

#[local] Instance announced_with_sequential fmt : Sequential (announced_with fmt).
Proof.
  split.
  - intros A o pre ev post cmd cwd capture r H. split_trace H.
  - intros A B t1 a t2 o H1 H2 pre ev post cmd cwd capture r H Hev.
    apply app_eq_inv in H as [(k & -> & Hk) | (k & -> & ->)].
    + destruct k as [|ev' k]; simpl in Hk.
      * subst t2. destruct (H2 [] ev post cmd cwd capture r eq_refl Hev) as [[pre' Hp] _].
        now destruct pre'.
      * injection Hk as <- ->.
        destruct (H1 pre ev k cmd cwd capture r eq_refl Hev) as [Hp Hs].
        split; [exact Hp|]. intros out Hr Hout.
        destruct (Hs out Hr Hout) as [post' ->]. now exists (post' ++ t2).
    + destruct (H2 k ev post cmd cwd capture r eq_refl Hev) as [[pre' ->] Hs].
      split; [|exact Hs]. exists (t1 ++ pre'). now rewrite app_assoc.
  - intros A B t c H. exact H.
  - intros A B t e H. exact H.
  - intros e a He pre ev post cmd cwd capture r H Hev.
    split_trace H. destruct e; simpl in *; discriminate.
Qed.

Lemma runner_run_announced fmt cmd cwd passthrough r :
  announced_with fmt _ (runner_run (fmt cmd) cmd cwd passthrough r).1
    (runner_run (fmt cmd) cmd cwd passthrough r).2.
Proof.
  intros pre ev post cmd' cwd' capture r' H Hev.
  unfold runner_run in *. destruct (embedded_null cmd cwd).
  { simpl in H. split_trace H; simpl in Hev; discriminate. }
  destruct r as [|code out].
  - simpl in H. split_trace H; simpl in Hev; try discriminate.
    injection Hev as <- <- <- <-. split; [now exists []|]. discriminate.
  - destruct (negb (readable passthrough out)) eqn:Er.
    { simpl in H. split_trace H; simpl in Hev; try discriminate.
      injection Hev as <- <- <- <-. split; [now exists []|].
      intros out' Hr Hout. injection Hr as _ <-.
      rewrite negb_involutive in Hout. rewrite Hout in Er. discriminate. }
    destruct (code =? 0)%Z eqn:E.
    + simpl in H. split_trace H; simpl in Hev; try discriminate.
      injection Hev as <- <- <- <-. split; [now exists []|].
      intros out' _ _. now eexists.
    + destruct (negb passthrough && negb (PyStr.is_empty (or_empty out)));
        simpl in H; split_trace H; simpl in Hev; try discriminate;
        injection Hev as <- <- <- <-; (split; [now exists []|]);
        intros out' Hr; injection Hr as -> _; discriminate E.
Qed.

(** X15: in every run of [main] and of the pull menu each child is
    announced immediately before it is spawned (the command joined with
    blanks in [main], each token shell-quoted in the menu), and a child
    that ends with return code 0 is immediately followed by the success
    line with the same text, unless its output was captured and is no
    text. *)
Theorem every_command_is_announced :
  (forall (w : world) (h : list event) (root : string) (args : Args)
          pre cmd cwd capture r post,
      (exec w h (main root args)).1 = pre ++ Event (Spawn cmd cwd capture) r :: post ->
      (exists pre', pre = pre' ++ [Event (Log INFO ("$ " +:+ PyStr.join " " cmd)) tt])
      /\ (forall out, r = Completed 0 out ->
             readable (negb capture) out = true ->
             exists post', post = Event (Log SUCCESS (PyStr.join " " cmd)) tt :: post'))
  /\ (forall (w : world) (h : list event) (turns : nat) (root org : string) (ic : bool)
             pre cmd cwd capture r post,
      (exec w h (menu turns root org ic)).1 = pre ++ Event (Spawn cmd cwd capture) r :: post ->
      (exists pre',
          pre = pre' ++ [Event (Log INFO
                                  ("$ " +:+ PyStr.join " " (map PyStr.shlex_quote cmd))) tt])
      /\ (forall out, r = Completed 0 out ->
             readable (negb capture) out = true ->
             exists post',
               post = Event (Log SUCCESS (PyStr.join " " (map PyStr.shlex_quote cmd))) tt
                      :: post')).
Proof.
  split.
  - intros w h root args pre cmd cwd capture r post Ht.
    assert (H : always (announced_with plain_line) (main root args)).
    { apply always_main; [exact _|]. intros c pt d _ w' h'.
      rewrite exec_run_subprocess. apply (runner_run_announced plain_line). }
    exact (H w h pre _ post cmd cwd capture r Ht eq_refl).
  - intros w h turns root org ic pre cmd cwd capture r post Ht.
    assert (H : always (announced_with quoted_line) (menu turns root org ic)).
    { apply always_menu; [exact _|]. intros c d pt w' h'.
      rewrite exec_run. apply (runner_run_announced quoted_line). }
    exact (H w h pre _ post cmd cwd capture r Ht eq_refl).
Qed.

Lemma every_command_is_announced_witness :
  exists pre',
    take 23 sf_missing_trace
    = pre' ++ [Event (Log INFO ("$ " +:+ PyStr.join " " ["sf"; "--version"])) tt].
Proof.
  assert (Ht : (exec sf_missing_world [] (main "/repo" demo_args)).1
               = take 23 sf_missing_trace
                 ++ Event (Spawn ["sf"; "--version"] None true)
                      (Completed 127 (Some "sf: command not found"))
                 :: drop 24 sf_missing_trace) by (vm_compute; reflexivity).
  exact (proj1 (proj1 every_command_is_announced sf_missing_world [] "/repo" demo_args
                  _ _ _ _ _ _ Ht)).
Defined.

(** ** Finding the project and the target org *)




(** X17: when [main] is given no [--target-org], finds no default alias
    and reads a blank answer to its question, it exits with code 1 before
    any other question and before any command. *)
Theorem missing_target_org_is_fatal :
  forall (w : world) (h : list event) (arg_target_org default_alias : option string)
         (arg_ignore_conflicts : bool) (root : string) (turns : nat) (line : string),
    truthy arg_target_org = false ->
    truthy default_alias = false ->
    hd_error (inputs (exec w h (main_from_target arg_target_org arg_ignore_conflicts
                                  default_alias root turns)).1)
    = Some (Some line) ->
    PyStr.strip line = EmptyString ->
    (exec w h (main_from_target arg_target_org arg_ignore_conflicts
                 default_alias root turns)).2 = Exited 1
    /\ spawned (exec w h (main_from_target arg_target_org arg_ignore_conflicts
                            default_alias root turns)).1 = []
    /\ inputs (exec w h (main_from_target arg_target_org arg_ignore_conflicts
                           default_alias root turns)).1 = [Some line].
Proof.
  intros w h arg_target_org default_alias arg_ignore_conflicts root turns line Harg Hdef.
  revert w h.
  change (holds (main_from_target arg_target_org arg_ignore_conflicts default_alias
                   root turns)
            (fun t o =>
               hd_error (inputs t) = Some (Some line) ->
               PyStr.strip line = EmptyString ->
               o = Exited 1 /\ spawned t = [] /\ inputs t = [Some line])).
  assert (Hnone : or_empty default_alias = EmptyString).
  { destruct default_alias as [[|c d]|]; [reflexivity | discriminate Hdef | reflexivity]. }
  unfold main_from_target, ask, ask_bool. rewrite Harg, Hnone. steps.
  all: try (apply holds_any; intros t o).
  all: simpl; intros Hin Hline; try discriminate Hin; injection Hin as <-.
  all: try (now repeat split).
  all: rewrite Hline in *; discriminate.
Qed.

Lemma missing_target_org_is_fatal_witness :
  (exec no_target_world [] (main_from_target None false None "/repo" 3)).2 = Exited 1
  /\ spawned (exec no_target_world [] (main_from_target None false None "/repo" 3)).1 = []
  /\ inputs (exec no_target_world [] (main_from_target None false None "/repo" 3)).1
     = [Some "   "].
Proof.
  apply (missing_target_org_is_fatal no_target_world [] None None false "/repo" 3 "   ");
    vm_compute; reflexivity.
Defined.


(** ** The two runners *)

Lemma shlex_quote_plain cmd :
  forallb plain_token cmd = true -> map PyStr.shlex_quote cmd = cmd.
Proof.
  induction cmd as [|token rest IH]; [reflexivity|].
  cbn [forallb map]. intros H. apply andb_true_iff in H as [Ht Hr].
  rewrite (IH Hr). f_equal.
  unfold plain_token in Ht. apply andb_true_iff in Ht as [He Hs].
  unfold PyStr.shlex_quote. apply negb_true_iff in He. now rewrite He, Hs.
Qed.

(** X18: on a command whose tokens are not empty and hold only
    characters the shell takes literally, [run] of the pull wizard and
    [run_subprocess] of the sequencer do the same in every world: the same
    events in the same order and the same outcome. The two runners differ
    by the quoting of the announced text alone. *)
Theorem runners_agree_on_plain_commands :
  forall (w : world) (h : list event) (cmd : list string) (cwd : option string)
         (passthrough : bool),
    forallb plain_token cmd = true ->
    exec w h (pull_metadata.run cmd cwd passthrough)
    = exec w h (run_subprocess cmd passthrough cwd).
Proof.
  intros w h cmd cwd passthrough Hplain.
  rewrite exec_run, exec_run_subprocess. cbv zeta.
  now rewrite (shlex_quote_plain _ Hplain).
Qed.

Lemma runners_agree_on_plain_commands_witness :
  exec sf_missing_world [] (pull_metadata.run ["sf"; "--version"] None false)
  = exec sf_missing_world [] (run_subprocess ["sf"; "--version"] false None).
Proof.
  apply (runners_agree_on_plain_commands sf_missing_world [] ["sf"; "--version"] None false).
  vm_compute. reflexivity.
Defined.



(** ** Runs of the gated handlers *)

Lemma reset_tracking_is_gated_witness :
  spawned (exec bare_world [] (reset_tracking "/repo" "org")).1 = []
  /\ (exec bare_world [] (reset_tracking "/repo" "org")).2 = Returned tt.
Proof.
  destruct (reset_tracking_is_gated bare_world [] "/repo" "org") as [Hs Ho].
  assert (Hin : inputs (exec bare_world [] (reset_tracking "/repo" "org")).1
                = [Some EmptyString]) by (vm_compute; reflexivity).
  rewrite Hin in Hs, Ho. split; [exact Hs | exact (Ho eq_refl)].
Defined.

Lemma create_scratch_org_guard_witness :
  spawned (exec bare_world [] (create_scratch_org "/repo" "fe-hello" false false)).1 = []
  /\ (exec bare_world [] (create_scratch_org "/repo" "fe-hello" false false)).2 = Exited 1.
Proof.
  destruct (create_scratch_org_guard bare_world [] "/repo" "fe-hello" false false)
    as (found & Hl & Hs & He).
  assert (Hlook : lookups (exec bare_world []
                             (create_scratch_org "/repo" "fe-hello" false false)).1
                  = [(SCRATCH_DEF "/repo", false)]) by (vm_compute; reflexivity).
  rewrite Hlook in Hl. injection Hl as <-. split; [exact Hs | exact (He eq_refl)].
Defined.

Lemma deploy_source_metadata_guard_witness :
  spawned_in (exec bare_world [] (deploy_source_metadata "/repo" "fe-hello")).1 = []
  /\ (exec bare_world [] (deploy_source_metadata "/repo" "fe-hello")).2 = Exited 1.
Proof.
  destruct (deploy_source_metadata_guard bare_world [] "/repo" "fe-hello")
    as (found & Hl & Hs & He).
  assert (Hlook : lookups (exec bare_world [] (deploy_source_metadata "/repo" "fe-hello")).1
                  = [(SFDX_PROJECT_DIR "/repo", false)]) by (vm_compute; reflexivity).
  rewrite Hlook in Hl. injection Hl as <-. split; [exact Hs | exact (He eq_refl)].
Defined.
